(** * Backend-Smartai: the HTTP entry point, in its three iterations

    The repository is an Express application.  Its entry point exists in
    three successive versions, which are embedded here side by side:

    - [V1]: [src/server.js], the serverless build;
    - [V2]: the first file of [src/unnamed/part_000] (lines 1-157);
    - [V3]: the second file of [src/unnamed/part_000] (lines 158-365).

    Conventions of the embedding.

    - A JavaScript string is a [string]: a sequence of code units below 256.
      This is the range of the values Node gives to request headers (they
      are decoded as latin1); environment values are covered as far as
      they stay in that range.
    - A value that is a string, [undefined] or [null] is an
      [option string]; [truthy] is JavaScript's conversion to boolean.
    - [process.env] and [req.headers] are objects used as maps: [gmap].
    - Console output is not part of the model. *)

From Stdlib Require Import Ascii String.
From stdpp Require Import base option list strings gmap.

Local Open Scope string_scope.

(** ** JavaScript strings *)

Module JS.

(** ToBoolean on a value that is a string or [undefined]/[null]. *)
Definition truthy (v : option string) : bool :=
  match v with
  | Some s => negb (String.eqb s "")
  | None => false
  end.

(** [String(v)] *)
Definition toString (v : option string) : string :=
  match v with
  | Some s => s
  | None => "undefined"
  end.

(** [a || b] *)
Definition or (a b : option string) : option string :=
  if truthy a then a else b.

(** WhiteSpace and LineTerminator code units below 256: TAB, LF, VT, FF,
    CR, SP and NBSP.  These are what [String.prototype.trim] removes. *)
Definition isWhiteSpace (c : ascii) : bool :=
  let n := nat_of_ascii c in
  ((9 <=? n) && (n <=? 13) || (n =? 32) || (n =? 160))%nat.

(** LineTerminator code units below 256: what [.] of a regular
    expression does not match. *)
Definition isLineTerminator (c : ascii) : bool :=
  let n := nat_of_ascii c in
  ((n =? 10) || (n =? 13))%nat.

(** [String.prototype.toLowerCase], one code unit: A-Z and the capital
    letters of the Latin-1 supplement (all of 192-222 but the
    multiplication sign 215) move up by 32. *)
Definition toLowerCaseChar (c : ascii) : ascii :=
  let n := nat_of_ascii c in
  if ((65 <=? n) && (n <=? 90)
      || (192 <=? n) && (n <=? 222) && negb (n =? 215))%nat
  then ascii_of_nat (n + 32) else c.

Fixpoint toLowerCase (s : string) : string :=
  match s with
  | EmptyString => EmptyString
  | String c s' => String (toLowerCaseChar c) (toLowerCase s')
  end.

(** Canonicalize of a regular expression with the [i] flag and without
    the [u] flag: the code unit is upper-cased, except that a code unit
    of 128 or more never becomes one below 128.  All patterns of the
    program are ASCII, so only the images below 128 are observable, and
    a code unit of 128 or more is left as it is. *)
Definition canonicalize (c : ascii) : ascii :=
  let n := nat_of_ascii c in
  if ((97 <=? n) && (n <=? 122))%nat then ascii_of_nat (n - 32) else c.

Definition charEqI (p c : ascii) : bool :=
  Ascii.eqb (canonicalize p) (canonicalize c).

(** The pattern [^lit] with the [i] flag, applied by [test]: the literal
    [lit] is a prefix of the subject, letter case apart.  The result is
    what follows the literal. *)
Fixpoint stripPrefixI (lit s : string) : option string :=
  match lit, s with
  | EmptyString, _ => Some s
  | String p lit', String c s' =>
      if charEqI p c then stripPrefixI lit' s' else None
  | String _ _, EmptyString => None
  end.

(** The whole subject is the literal, letter case apart. *)
Fixpoint eqI (lit s : string) : bool :=
  match lit, s with
  | EmptyString, EmptyString => true
  | String p lit', String c s' => charEqI p c && eqI lit' s'
  | _, _ => false
  end.

Fixpoint dropStart (p : ascii -> bool) (s : string) : string :=
  match s with
  | EmptyString => EmptyString
  | String c s' => if p c then dropStart p s' else s
  end.

(** Removes the longest suffix all of whose code units satisfy [p]. *)
Fixpoint dropEnd (p : ascii -> bool) (s : string) : string :=
  match s with
  | EmptyString => EmptyString
  | String c s' =>
      match dropEnd p s' with
      | EmptyString => if p c then EmptyString else String c EmptyString
      | String _ _ as t => String c t
      end
  end.

(** [String.prototype.trim] *)
Definition trim (s : string) : string :=
  dropEnd isWhiteSpace (dropStart isWhiteSpace s).

Definition isSlash (c : ascii) : bool := Ascii.eqb c "/".

(** [s.replace(/\/+$/, '')]: the pattern has no [g] flag, so the first
    match is replaced; the leftmost place where [\/+$] matches is the
    start of the run of slashes that ends the subject. *)
Definition stripTrailingSlashes (s : string) : string :=
  dropEnd isSlash s.

Definition startsWithI (lit s : string) : bool :=
  match stripPrefixI lit s with
  | Some _ => true
  | None => false
  end.

(** [/^https?:\/\//i.test(s)]: after [http], the optional [s] is tried
    first and then skipped. *)
Definition hasHttpScheme (s : string) : bool :=
  match stripPrefixI "http" s with
  | Some rest =>
      match stripPrefixI "s" rest with
      | Some rest' => startsWithI "://" rest'
      | None => false
      end
      || startsWithI "://" rest
  | None => false
  end.

(** The subject is [mid ++ tail] where [tail], letter case apart, is
    [lit] and [mid] is one or more code units that [.] matches. *)
Fixpoint dotPlusThenI (lit s : string) : bool :=
  match s with
  | EmptyString => false
  | String c s' =>
      negb (isLineTerminator c) && (eqI lit s' || dotPlusThenI lit s')
  end.

(** [/^https:\/\/.+\.vercel\.app$/i.test(s)] *)
Definition isVercelApp (s : string) : bool :=
  match stripPrefixI "https://" s with
  | Some rest => dotPlusThenI ".vercel.app" rest
  | None => false
  end.

(** [xs.includes(x)] on an array of strings *)
Definition includes (xs : list string) (x : string) : bool :=
  existsb (String.eqb x) xs.

(** [Array.from(new Set(xs))]: a Set keeps the first occurrence of each
    element, in insertion order. *)
Fixpoint uniq (seen xs : list string) : list string :=
  match xs with
  | [] => []
  | x :: xs' =>
      if includes seen x then uniq seen xs'
      else x :: uniq (x :: seen) xs'
  end.

(** [xs.filter(Boolean)] on an array of strings, [undefined] and [null] *)
Fixpoint filterBoolean (xs : list (option string)) : list string :=
  match xs with
  | [] => []
  | Some s :: xs' =>
      if truthy (Some s) then s :: filterBoolean xs' else filterBoolean xs'
  | None :: xs' => filterBoolean xs'
  end.

End JS.

(** ** Requests, responses and handlers *)

(** What the program passes to the callback of [corsOptions.origin]. *)
Inductive callbackArgs :=
| cbOk (allow : bool)          (* callback(null, allow) *)
| cbError (message : string).  (* callback(new Error(message)) *)

(** JSON bodies. *)
#[local] Unset Elimination Schemes.
Inductive json :=
| jstr (s : string)
| jbool (b : bool)
| jarr (items : list json)
| jobj (fields : list (string * json)).
#[local] Set Elimination Schemes.

(** An incoming request: [req.method], [req.path] and [req.headers] (whose
    keys Node gives in lower case). *)
Record request := {
  method : string;
  path : string;
  headers : gmap string string
}.

(** The state of a response object: [res.statusCode], the headers set so
    far, and the body once one was sent. *)
Record response := {
  statusCode : nat;
  resHeaders : gmap string string;
  body : option json
}.

(** [res.setHeader(k, v)] *)
Definition setHeader (k v : string) (res : response) : response :=
  {| statusCode := statusCode res;
     resHeaders := <[k := v]> (resHeaders res);
     body := body res |}.

Definition removeHeader (k : string) (res : response) : response :=
  {| statusCode := statusCode res;
     resHeaders := delete k (resHeaders res);
     body := body res |}.

(** [res.status(n)] *)
Definition status (n : nat) (res : response) : response :=
  {| statusCode := n; resHeaders := resHeaders res; body := body res |}.

(** What a middleware or route handler does with a request. *)
Inductive outcome :=
| next (res : response)                      (* next() *)
| nextErr (err : string) (res : response)    (* next(err) *)
| sent (res : response)                      (* the response was ended *)
| rejects (err : string) (res : response)    (* an async handler throws and
                                                nothing catches it *)
| suspends (res : response)                  (* an awaited promise is still
                                                pending *)
| entered (res : response).                  (* control is inside a module
                                                outside the entry point *)

(** ** The cors package

    [cors] is a dependency of the program, not part of it.  This module
    transcribes the part of its [lib/index.js] (version 2.8) that the three
    versions exercise: an [origin] option that is a function, with
    [credentials: true]. *)

Module Cors.

Record options := {
  credentials : bool;
  methods : string;
  allowedHeaders : option string
}.

(** [defaults.methods] *)
Definition defaultMethods : string := "GET,HEAD,PUT,PATCH,POST,DELETE".

(** [vary(res, field)]: the field is appended to the Vary header.  Each
    field is added once to a response, so the check of the package for a
    field that is already listed is left out. *)
Definition vary (field : string) (res : response) : response :=
  match resHeaders res !! "Vary" with
  | Some v => setHeader "Vary" (v ++ ", " ++ field) res
  | None => setHeader "Vary" field res
  end.

(** [applyHeaders] on one header: a header whose value is falsy is not
    set. *)
Definition apply (k : string) (v : option string) (res : response)
  : response :=
  match v with
  | Some s => if JS.truthy v then setHeader k s res else res
  | None => res
  end.

(** [configureOrigin] when [options.origin] is [true], the value the
    callback passed: [isOriginAllowed] holds, and the request origin is
    reflected. *)
Definition configureOrigin (req : request) (res : response) : response :=
  vary "Origin"
    (apply "Access-Control-Allow-Origin" (headers req !! "origin") res).

Definition configureCredentials (o : options) (res : response) : response :=
  if credentials o
  then setHeader "Access-Control-Allow-Credentials" "true" res
  else res.

Definition configureMethods (o : options) (res : response) : response :=
  setHeader "Access-Control-Allow-Methods" (methods o) res.

Definition configureAllowedHeaders (o : options) (req : request)
    (res : response) : response :=
  match allowedHeaders o with
  | Some h => apply "Access-Control-Allow-Headers" (Some h) res
  | None =>
      apply "Access-Control-Allow-Headers"
        (headers req !! "access-control-request-headers")
        (vary "Access-Control-Request-Headers" res)
  end.

(** [cors(options, req, res, next)] with [options.origin === true],
    [preflightContinue] false and [optionsSuccessStatus] 204.  The
    package compares the method in upper case; Node gives it in upper
    case. *)
Definition cors (o : options) (req : request) (res : response) : outcome :=
  if String.eqb (method req) "OPTIONS" then
    let res := configureOrigin req res in
    let res := configureCredentials o res in
    let res := configureMethods o res in
    let res := configureAllowedHeaders o req res in
    sent (setHeader "Content-Length" "0" (status 204 res))
  else
    next (configureCredentials o (configureOrigin req res)).

(** [corsMiddleware]: the origin function of the options is called with
    [req.headers.origin]; an error goes to [next], a falsy answer skips
    the headers. *)
Definition corsMiddleware (o : options)
    (origin : option string -> callbackArgs)
    (req : request) (res : response) : outcome :=
  match origin (headers req !! "origin") with
  | cbError e => nextErr e res
  | cbOk false => next res
  | cbOk true => cors o req res
  end.

End Cors.

(** ** Express

    The part of Express 4 routing that the program relies on: layers are
    tried in the order of their registration; [next()] goes on to the
    following layer, [next(err)] to the following error-handling
    middleware. *)

(** The functions that the program registers.  [jsonParser],
    [urlencodedParser] and [cookieParser] come from packages; the routers,
    [notFound] and [errorHandler] come from other modules of the
    repository (routes/..., middleware/errorHandler), which the entry
    point only requires. *)
Inductive handler :=
| originLogger        (* V3: logs req.headers.origin *)
| corsHandler         (* cors(corsOptions) *)
| corsFallback        (* V1, V2: the "safety fallback" middleware *)
| jsonParser          (* express.json({ limit: '5mb' }) *)
| urlencodedParser    (* express.urlencoded({ extended: true }) *)
| cookieParser        (* cookieParser() *)
| requestLogger       (* V3: logs method and url *)
| root                (* V3: GET / *)
| ensureDB            (* async middleware around connectDB() *)
| router (module : string)
| health
| testNodemailer
| notFound
| errorHandler.

Inductive layer :=
| use (h : handler)                       (* app.use(h) *)
| useAt (mount : string) (h : handler)    (* app.use(mount, h) *)
| get (route : string) (h : handler)      (* app.get(route, h) *)
| options (route : string) (h : handler). (* app.options(route, h) *)

Definition handlerOf (l : layer) : handler :=
  match l with
  | use h | useAt _ h | get _ h | options _ h => h
  end.

Module Express.

(** Modelled from the spec: [errorHandler], of middleware/errorHandler,
    is the "catch-all error middleware", so it is the one registered
    function that takes [(err, req, res, next)]; [notFound] is an
    ordinary middleware. *)
Definition isErrorHandler (h : handler) : bool :=
  match h with
  | errorHandler => true
  | _ => false
  end.

(** A route path without its last slash, if it ends in one. *)
Fixpoint dropLastSlash (route : string) : string :=
  match route with
  | EmptyString => EmptyString
  | String c EmptyString =>
      if JS.isSlash c then EmptyString else String c EmptyString
  | String c rest => String c (dropLastSlash rest)
  end.

(** A route path matches the whole request path, letter case apart and
    with or without a closing slash; [*] matches every path. *)
Definition matchRoute (route p : string) : bool :=
  if String.eqb route "*" then true
  else let base := dropLastSlash route in
       JS.eqI base p || JS.eqI (base ++ "/") p.

(** A mount path matches a request path that continues it at a segment
    boundary. *)
Definition matchMount (mount p : string) : bool :=
  match JS.stripPrefixI (dropLastSlash mount) p with
  | Some EmptyString => true
  | Some (String c _) => JS.isSlash c
  | None => false
  end.

(** A [get] route also answers HEAD. *)
Definition matches (l : layer) (req : request) : bool :=
  match l with
  | use _ => true
  | useAt mount _ => matchMount mount (path req)
  | get route _ =>
      (String.eqb (method req) "GET" || String.eqb (method req) "HEAD")
      && matchRoute route (path req)
  | options route _ =>
      String.eqb (method req) "OPTIONS" && matchRoute route (path req)
  end.

(** Whether a layer is given the request: with a pending error only
    error-handling middleware is, without one every other layer that
    matches. *)
Definition applies (l : layer) (req : request) (err : option string)
  : bool :=
  match err with
  | Some _ =>
      match l with
      | use h | useAt _ h => isErrorHandler h && matches l req
      | get _ _ | options _ _ => false
      end
  | None => negb (isErrorHandler (handlerOf l)) && matches l req
  end.

(** How the handling of a request ends. *)
Inductive fate :=
| responded (by_ : handler) (res : response)
| enteredModule (h : handler) (err : option string) (res : response)
| unhandledRejection (by_ : handler) (err : string) (res : response)
| waiting (by_ : handler) (res : response)
| fellThrough (err : option string) (res : response).

Definition resOf (f : fate) : response :=
  match f with
  | responded _ res | enteredModule _ _ res | unhandledRejection _ _ res
  | waiting _ res | fellThrough _ res => res
  end.

Section Dispatch.

(** What each registered function does, given the pending error. *)
Variable run : handler -> request -> option string -> response -> outcome.

Fixpoint dispatch (stack : list layer) (req : request)
    (err : option string) (res : response) : fate :=
  match stack with
  | [] => fellThrough err res
  | l :: stack' =>
      if applies l req err then
        match run (handlerOf l) req err res with
        | next res' => dispatch stack' req err res'
        | nextErr e res' => dispatch stack' req (Some e) res'
        | sent res' => responded (handlerOf l) res'
        | rejects e res' => unhandledRejection (handlerOf l) e res'
        | suspends res' => waiting (handlerOf l) res'
        | entered res' => enteredModule (handlerOf l) err res'
        end
      else dispatch stack' req err res
  end.

End Dispatch.

(** [res.json(v)] *)
Definition resJson (v : json) (res : response) : response :=
  let res :=
    match resHeaders res !! "Content-Type" with
    | Some _ => res
    | None => setHeader "Content-Type" "application/json; charset=utf-8" res
    end in
  {| statusCode := statusCode res;
     resHeaders := resHeaders res;
     body := Some v |}.

(** [res.sendStatus(204)]: no body, and no headers that describe one. *)
Definition sendStatus204 (res : response) : response :=
  removeHeader "Content-Type"
    (removeHeader "Content-Length"
       (removeHeader "Transfer-Encoding" (status 204 res))).

(** The response object that Express hands to the first layer. *)
Definition freshResponse : response :=
  {| statusCode := 200;
     resHeaders := {[ "X-Powered-By" := "Express" ]};
     body := None |}.

End Express.

(** ** The database connection

    [mongoose] is a dependency.  Of it the model keeps what [connectDB]
    observes: [mongoose.connection.readyState], and for every call of
    [mongoose.connect] the promise it returned.  The promise that the
    program derives from it with [.then] (and [.catch]) is kept next to
    it, and [global._connPromise] / [global._mongoPromise] is a reference
    to such a pair, so that two calls that await the global promise await
    the same object. *)

Module DB.

Inductive promise :=
| pending
| fulfilled
| rejected (reason : string).

Record connection := {
  uri : option string;        (* the argument of mongoose.connect *)
  connectPromise : promise;   (* what mongoose.connect returned *)
  chained : promise           (* connectPromise.then(...)[.catch(...)] *)
}.

Record world := {
  readyState : nat;                (* 0 disconnected, 1 connected,
                                      2 connecting, 3 disconnecting *)
  connections : list connection;   (* one per mongoose.connect call,
                                      oldest first *)
  globalPromise : option nat       (* index into [connections] *)
}.

(** A process starts disconnected, with the global unset. *)
Definition init : world :=
  {| readyState := 0; connections := []; globalPromise := None |}.

(** [mongoose.connect(uri)]: the connection goes to "connecting" and a
    pending promise is returned. *)
Definition mongooseConnect (u : option string) (w : world) : world * nat :=
  ({| readyState := 2;
      connections :=
        connections w
        ++ [{| uri := u; connectPromise := pending; chained := pending |}];
      globalPromise := globalPromise w |},
   length (connections w)).

Definition setGlobal (p : nat) (w : world) : world :=
  {| readyState := readyState w;
     connections := connections w;
     globalPromise := Some p |}.

Definition setReadyState (n : nat) (w : world) : world :=
  {| readyState := n;
     connections := connections w;
     globalPromise := globalPromise w |}.

Definition setConnections (cs : list connection) (w : world) : world :=
  {| readyState := readyState w;
     connections := cs;
     globalPromise := globalPromise w |}.

(** How a call of the async function [connectDB] leaves its synchronous
    part: it has returned, or it awaits a promise. *)
Inductive call :=
| returned
| awaiting (p : nat).

(** [await v] where [v] is the global: awaiting [undefined] goes on at
    once. *)
Definition await (g : option nat) : call :=
  match g with
  | Some p => awaiting p
  | None => returned
  end.

(** How the promise of a [connectDB] call is settled. *)
Inductive awaited :=
| resolved
| threw (reason : string)
| unsettled.

Definition outcomeOf (w : world) (c : call) : awaited :=
  match c with
  | returned => resolved
  | awaiting p =>
      match connections w !! p with
      | Some {| chained := fulfilled |} => resolved
      | Some {| chained := rejected e |} => threw e
      | _ => unsettled
      end
  end.

(** What a version of the program contributes: [connectDB] up to its
    await, and the callbacks it chains on the promise of
    [mongoose.connect]. *)
Record program := {
  connectDB : world -> world * call;
  onConnected : promise;       (* state of the chained promise when the
                                  [then] callback has run up to its
                                  await *)
  onIndexes : option string -> promise;
                               (* ... and when createIndexes() settled,
                                  [None] for success *)
  onFailed : string -> promise (* ... when mongoose.connect rejected *)
}.

(** What happens in a process, as far as the connection is concerned.
    JavaScript runs a call of [connectDB] up to its [await] before anything
    else happens, so that part of a call is one event. *)
Inductive event :=
| callConnectDB                 (* a request reaches the middleware
                                   that calls connectDB() *)
| connectSettles (i : nat) (failure : option string)
                                (* mongoose settles the promise of the
                                   i-th mongoose.connect call *)
| indexesSettle (i : nat) (failure : option string)
                                (* the createIndexes() call of the i-th
                                   chain settles *)
| connectionLost                (* mongoose: connected -> disconnected *)
| reconnected.                  (* mongoose reconnects by itself, which
                                   it does only after a first
                                   successful connect *)

Definition everConnected (w : world) : bool :=
  existsb
    (fun c => match connectPromise c with fulfilled => true | _ => false end)
    (connections w).

Definition step (P : program) (w : world) (ev : event) : world :=
  match ev with
  | callConnectDB => fst (connectDB P w)
  | connectSettles i failure =>
      match connections w !! i with
      | Some {| uri := u; connectPromise := pending |} =>
          match failure with
          | None =>
              setReadyState 1
                (setConnections
                   (<[i := {| uri := u; connectPromise := fulfilled;
                              chained := onConnected P |}]> (connections w))
                   w)
          | Some e =>
              setReadyState 0
                (setConnections
                   (<[i := {| uri := u; connectPromise := rejected e;
                              chained := onFailed P e |}]> (connections w))
                   w)
          end
      | _ => w
      end
  | indexesSettle i failure =>
      match connections w !! i with
      | Some {| uri := u; connectPromise := fulfilled;
                chained := pending |} =>
          setConnections
            (<[i := {| uri := u; connectPromise := fulfilled;
                       chained := onIndexes P failure |}]> (connections w))
            w
      | _ => w
      end
  | connectionLost =>
      if (readyState w =? 1)%nat then setReadyState 0 w else w
  | reconnected =>
      if (readyState w =? 0)%nat && everConnected w
      then setReadyState 1 w else w
  end.

Definition exec (P : program) (trace : list event) (w : world) : world :=
  fold_left (step P) trace w.

(** The number of [mongoose.connect] calls made so far. *)
Definition connectCalls (w : world) : nat := length (connections w).

End DB.

(** ** What surrounds a request *)

(** The module services/emailService as the debug route sees it. *)
Inductive emailModule :=
| emailMissing                     (* require() threw: emailService is null *)
| emailWithoutVerify               (* verifyConnection is not a function *)
| emailVerifies (ok : json)        (* verifyConnection() resolves to ok *)
| emailThrows (message : string).  (* verifyConnection() rejects *)

Record ambient := {
  processEnv : gmap string string;  (* process.env, after dotenv *)
  createIndexes : bool;             (* config/dbIndexes exports a function
                                       createIndexes *)
  emailService : emailModule;
  now : string;                     (* new Date().toISOString() *)
  parserError : handler -> request -> option string;
                                    (* the error that a body or cookie
                                       parser passes to next, if any *)
  connectDBResult : DB.awaited      (* how [await connectDB()] ends for
                                       this request *)
}.

Definition parse (a : ambient) (h : handler) (req : request)
    (res : response) : outcome :=
  match parserError a h req with
  | Some e => nextErr e res
  | None => next res
  end.

(** The six routers, as every version mounts them. *)
Definition routes : list layer :=
  [ useAt "/api/auth" (router "./routes/auth");
    useAt "/api/quiz" (router "./routes/quiz");
    useAt "/api/folders" (router "./routes/folder");
    useAt "/api/bookmarks" (router "./routes/bookmark");
    useAt "/api/students" (router "./routes/student");
    useAt "/api/student-quiz" (router "./routes/studentQuiz") ].

(** [(req, res) => res.json({ status: 'OK' })] *)
Definition healthHandler (res : response) : outcome :=
  sent (Express.resJson (jobj [("status", jstr "OK")]) res).

(** The handler of /api/debug/test-nodemailer.  [String(err.message || err)]
    of an Error without a message is the name of the error. *)
Definition testNodemailerHandler (a : ambient) (res : response) : outcome :=
  match emailService a with
  | emailMissing | emailWithoutVerify =>
      sent (Express.resJson
              (jobj [("ok", jbool false);
                     ("error",
                      jstr "Email service not configured or verifyConnection missing")])
              (status 500 res))
  | emailVerifies ok => sent (Express.resJson (jobj [("ok", ok)]) res)
  | emailThrows message =>
      sent (Express.resJson
              (jobj [("ok", jbool false);
                     ("error",
                      jstr (if JS.truthy (Some message) then message
                            else "Error"))])
              (status 500 res))
  end.

(** ** Version 1: src/server.js *)

Module V1.

Definition allowedOrigins (env : gmap string string) : list string :=
  JS.filterBoolean
    [ env !! "CLIENT_URL";
      env !! "FRONTEND_URL";
      Some "https://frontend-smartai-hydx.vercel.app";
      Some "http://localhost:5173";
      Some "http://localhost:8080" ].

(** [corsOptions.origin] *)
Definition origin (env : gmap string string) (origin : option string)
  : callbackArgs :=
  match origin with
  | Some o =>
      if negb (JS.truthy origin) then cbOk true
      else if JS.includes (allowedOrigins env) o then cbOk true
      else cbError "Not allowed by CORS"
  | None => cbOk true
  end.

Definition corsOptions : Cors.options :=
  {| Cors.credentials := true;
     Cors.methods := Cors.defaultMethods;
     Cors.allowedHeaders := None |}.

(** The middleware registered after [cors]. *)
Definition fallback (env : gmap string string) (req : request)
    (res : response) : outcome :=
  let res :=
    match headers req !! "origin" with
    | Some o =>
        if JS.truthy (Some o) && JS.includes (allowedOrigins env) o then
          setHeader "Access-Control-Allow-Methods"
            "GET, POST, PUT, DELETE, OPTIONS"
            (setHeader "Access-Control-Allow-Headers"
               "Content-Type, Authorization"
               (setHeader "Access-Control-Allow-Credentials" "true"
                  (setHeader "Access-Control-Allow-Origin" o res)))
        else res
    | None => res
    end in
  if String.eqb (method req) "OPTIONS"
  then sent (Express.sendStatus204 res)
  else next res.

Definition MONGO_URI (env : gmap string string) : option string :=
  env !! "MONGODB_URI".

Definition connectDB (env : gmap string string) (w : DB.world)
  : DB.world * DB.call :=
  if (DB.readyState w =? 1)%nat then (w, DB.returned)
  else
    let w :=
      match DB.globalPromise w with
      | None =>
          let '(w', p) := DB.mongooseConnect (MONGO_URI env) w in
          DB.setGlobal p w'
      | Some _ => w
      end in
    (w, DB.await (DB.globalPromise w)).

(** The callback given to [then] awaits [createIndexes()] if that is
    defined, and nothing catches what it throws; a rejection of
    [mongoose.connect] passes through [then]. *)
Definition db (env : gmap string string) (createIndexes : bool)
  : DB.program :=
  {| DB.connectDB := connectDB env;
     DB.onConnected := if createIndexes then DB.pending else DB.fulfilled;
     DB.onIndexes := fun failure =>
       match failure with
       | Some e => DB.rejected e
       | None => DB.fulfilled
       end;
     DB.onFailed := DB.rejected |}.

(** [async (req, res, next) => { await connectDB(); next(); }] *)
Definition ensureDBHandler (a : ambient) (res : response) : outcome :=
  match connectDBResult a with
  | DB.resolved => next res
  | DB.threw e => rejects e res
  | DB.unsettled => suspends res
  end.

Definition run (a : ambient) (h : handler) (req : request)
    (err : option string) (res : response) : outcome :=
  match h with
  | corsHandler =>
      Cors.corsMiddleware corsOptions (origin (processEnv a)) req res
  | corsFallback => fallback (processEnv a) req res
  | jsonParser | urlencodedParser | cookieParser => parse a h req res
  | ensureDB => ensureDBHandler a res
  | health => healthHandler res
  | router _ | notFound | errorHandler => entered res
  (* not registered in this version *)
  | originLogger | requestLogger | root | testNodemailer => next res
  end.

(** The calls on [app], in the order of the file. *)
Definition app : list layer :=
  [ use corsHandler;
    options "*" corsHandler;
    use corsFallback;
    use jsonParser;
    use urlencodedParser;
    use cookieParser;
    use ensureDB ]
  ++ routes
  ++ [ get "/api/health" health;
       use notFound;
       use errorHandler ].

Definition handle (a : ambient) (req : request) : Express.fate :=
  Express.dispatch (run a) app req None Express.freshResponse.

End V1.

(** ** Version 2: src/unnamed/part_000, first file *)

Module V2.

Definition allowedOrigins (env : gmap string string) : list string :=
  JS.filterBoolean
    [ env !! "CLIENT_URL";
      env !! "FRONTEND_URL";
      Some "https://frontend-smartai-hydx.vercel.app";
      Some "http://localhost:5173";
      Some "http://localhost:8080";
      Some "http://127.0.0.1:5173";
      Some "http://127.0.0.1:8080" ].

(** [corsOptions.origin] *)
Definition origin (env : gmap string string) (origin : option string)
  : callbackArgs :=
  match origin with
  | Some o =>
      if negb (JS.truthy origin) then cbOk true
      else if JS.includes (allowedOrigins env) o then cbOk true
      else cbError "Not allowed by CORS"
  | None => cbOk true
  end.

Definition corsOptions : Cors.options :=
  {| Cors.credentials := true;
     Cors.methods := "GET,HEAD,PUT,PATCH,POST,DELETE,OPTIONS";
     Cors.allowedHeaders :=
       Some "Content-Type, Authorization, X-Requested-With" |}.

(** The "safety fallback" middleware. *)
Definition fallback (env : gmap string string) (req : request)
    (res : response) : outcome :=
  let res :=
    match headers req !! "origin" with
    | Some o =>
        if JS.truthy (Some o) && JS.includes (allowedOrigins env) o then
          setHeader "Access-Control-Allow-Methods"
            "GET,HEAD,PUT,PATCH,POST,DELETE,OPTIONS"
            (setHeader "Access-Control-Allow-Headers"
               "Content-Type, Authorization, X-Requested-With"
               (setHeader "Access-Control-Allow-Credentials" "true"
                  (setHeader "Access-Control-Allow-Origin" o res)))
        else res
    | None => res
    end in
  if String.eqb (method req) "OPTIONS"
  then sent (Express.sendStatus204 res)
  else next res.

Definition MONGO_URI (env : gmap string string) : option string :=
  JS.or (env !! "MONGODB_URI")
    (JS.or (env !! "MONGO_URI") (Some "mongodb://localhost:27017/quizapp")).

Definition connectDB (env : gmap string string) (w : DB.world)
  : DB.world * DB.call :=
  if (DB.readyState w =? 1)%nat then (w, DB.returned)
  else
    match DB.globalPromise w with
    | Some p => (w, DB.await (Some p))
    | None =>
        let '(w', p) := DB.mongooseConnect (MONGO_URI env) w in
        let w' := DB.setGlobal p w' in
        (w', DB.await (DB.globalPromise w'))
    end.

(** The callback given to [then] awaits [createIndexes()] if that is a
    function and catches what it throws; the callback given to [catch]
    throws the error of [mongoose.connect] again. *)
Definition db (env : gmap string string) (createIndexes : bool)
  : DB.program :=
  {| DB.connectDB := connectDB env;
     DB.onConnected := if createIndexes then DB.pending else DB.fulfilled;
     DB.onIndexes := fun _ => DB.fulfilled;
     DB.onFailed := DB.rejected |}.

(** [async (req, res, next) => { try { await connectDB(); next(); }
    catch (err) { next(err); } }] *)
Definition ensureDBHandler (a : ambient) (res : response) : outcome :=
  match connectDBResult a with
  | DB.resolved => next res
  | DB.threw e => nextErr e res
  | DB.unsettled => suspends res
  end.

Definition run (a : ambient) (h : handler) (req : request)
    (err : option string) (res : response) : outcome :=
  match h with
  | corsHandler =>
      Cors.corsMiddleware corsOptions (origin (processEnv a)) req res
  | corsFallback => fallback (processEnv a) req res
  | jsonParser | urlencodedParser | cookieParser => parse a h req res
  | ensureDB => ensureDBHandler a res
  | health => healthHandler res
  | testNodemailer => testNodemailerHandler a res
  | router _ | notFound | errorHandler => entered res
  (* not registered in this version *)
  | originLogger | requestLogger | root => next res
  end.

Definition app : list layer :=
  [ use corsHandler;
    options "*" corsHandler;
    use corsFallback;
    use jsonParser;
    use urlencodedParser;
    use cookieParser;
    use ensureDB ]
  ++ routes
  ++ [ get "/api/health" health;
       get "/api/debug/test-nodemailer" testNodemailer;
       use notFound;
       use errorHandler ].

Definition handle (a : ambient) (req : request) : Express.fate :=
  Express.dispatch (run a) app req None Express.freshResponse.

End V2.

(** ** Version 3: src/unnamed/part_000, second file *)

Module V3.

Definition normalizeOriginEntry (entry : option string) : option string :=
  if negb (JS.truthy entry) then None
  else
    let entry := JS.stripTrailingSlashes (JS.trim (JS.toString entry)) in
    if JS.hasHttpScheme entry then Some entry
    else Some ("https://" ++ entry).

Definition rawAllowlist (env : gmap string string) : list (option string) :=
  [ Some "http://localhost:5173";
    Some "http://localhost:8080";
    Some "http://127.0.0.1:5173";
    Some "http://127.0.0.1:8080";
    Some "https://frontend-smartai-hydx.vercel.app";
    Some "https://smartai-ten.vercel.app";
    env !! "CLIENT_URL";
    env !! "VERCEL_URL" ].

Definition allowVercelPreviews (env : gmap string string) : bool :=
  String.eqb
    (JS.toLowerCase
       (JS.toString (JS.or (env !! "ALLOW_VERCEL_PREVIEWS") (Some ""))))
    "true".

Definition allowedOrigins (env : gmap string string) : list string :=
  JS.uniq []
    (JS.filterBoolean (map normalizeOriginEntry (rawAllowlist env))).

(** [corsOptions.origin] *)
Definition origin (env : gmap string string) (origin : option string)
  : callbackArgs :=
  match origin with
  | Some o =>
      if negb (JS.truthy origin) then cbOk true
      else if JS.includes (allowedOrigins env) o then cbOk true
      else if allowVercelPreviews env && JS.isVercelApp o then cbOk true
      else cbError "Not allowed by CORS"
  | None => cbOk true
  end.

(** [methods] and [allowedHeaders] are arrays, which the package joins
    with a comma. *)
Definition corsOptions : Cors.options :=
  {| Cors.credentials := true;
     Cors.methods := "GET,HEAD,PUT,PATCH,POST,DELETE,OPTIONS";
     Cors.allowedHeaders :=
       Some "Content-Type,Authorization,X-Requested-With,Accept" |}.

(** The handler of GET /. *)
Definition rootHandler (a : ambient) (res : response) : outcome :=
  sent (Express.resJson
          (jobj [("message", jstr "SmartAI Backend API is running!");
                 ("version", jstr "1.0");
                 ("endpoints",
                  jarr [jstr "GET /api/auth";
                        jstr "GET /api/bookmark";
                        jstr "GET /api/quiz";
                        jstr "GET /api/folders";
                        jstr "GET /api/students";
                        jstr "GET /api/students-quiz"]);
                 ("timestamp", jstr (now a))])
          res).

Definition MONGO_URI (env : gmap string string) : option string :=
  JS.or (env !! "MONGODB_URI")
    (JS.or (env !! "MONGO_URI") (Some "mongodb://localhost:27017/quizapp")).

Definition connectDB (env : gmap string string) (w : DB.world)
  : DB.world * DB.call :=
  if (DB.readyState w =? 1)%nat then (w, DB.returned)
  else
    match DB.globalPromise w with
    | Some p => (w, DB.await (Some p))
    | None =>
        let '(w', p) := DB.mongooseConnect (MONGO_URI env) w in
        let w' := DB.setGlobal p w' in
        (w', DB.await (DB.globalPromise w'))
    end.

(** As in version 2. *)
Definition db (env : gmap string string) (createIndexes : bool)
  : DB.program :=
  {| DB.connectDB := connectDB env;
     DB.onConnected := if createIndexes then DB.pending else DB.fulfilled;
     DB.onIndexes := fun _ => DB.fulfilled;
     DB.onFailed := DB.rejected |}.

Definition ensureDBHandler (a : ambient) (res : response) : outcome :=
  match connectDBResult a with
  | DB.resolved => next res
  | DB.threw e => nextErr e res
  | DB.unsettled => suspends res
  end.

Definition run (a : ambient) (h : handler) (req : request)
    (err : option string) (res : response) : outcome :=
  match h with
  | originLogger | requestLogger => next res
  | corsHandler =>
      Cors.corsMiddleware corsOptions (origin (processEnv a)) req res
  | jsonParser | urlencodedParser | cookieParser => parse a h req res
  | root => rootHandler a res
  | ensureDB => ensureDBHandler a res
  | health => healthHandler res
  | testNodemailer => testNodemailerHandler a res
  | router _ | notFound | errorHandler => entered res
  (* not registered in this version *)
  | corsFallback => next res
  end.

Definition app : list layer :=
  [ use originLogger;
    use corsHandler;
    options "*" corsHandler;
    use jsonParser;
    use urlencodedParser;
    use cookieParser;
    use requestLogger;
    get "/" root;
    use ensureDB ]
  ++ routes
  ++ [ get "/api/health" health;
       get "/api/debug/test-nodemailer" testNodemailer;
       use notFound;
       use errorHandler ].

Definition handle (a : ambient) (req : request) : Express.fate :=
  Express.dispatch (run a) app req None Express.freshResponse.

End V3.

(** ** The three versions together *)

Inductive version := v1 | v2 | v3.

Definition allowedOrigins (v : version) (env : gmap string string)
  : list string :=
  match v with
  | v1 => V1.allowedOrigins env
  | v2 => V2.allowedOrigins env
  | v3 => V3.allowedOrigins env
  end.

Definition origin (v : version) (env : gmap string string)
    (o : option string) : callbackArgs :=
  match v with
  | v1 => V1.origin env o
  | v2 => V2.origin env o
  | v3 => V3.origin env o
  end.

Definition MONGO_URI (v : version) (env : gmap string string)
  : option string :=
  match v with
  | v1 => V1.MONGO_URI env
  | v2 => V2.MONGO_URI env
  | v3 => V3.MONGO_URI env
  end.

Definition db (v : version) (env : gmap string string) (createIndexes : bool)
  : DB.program :=
  match v with
  | v1 => V1.db env createIndexes
  | v2 => V2.db env createIndexes
  | v3 => V3.db env createIndexes
  end.

Definition app (v : version) : list layer :=
  match v with
  | v1 => V1.app
  | v2 => V2.app
  | v3 => V3.app
  end.

Definition handle (v : version) (a : ambient) (req : request)
  : Express.fate :=
  match v with
  | v1 => V1.handle a req
  | v2 => V2.handle a req
  | v3 => V3.handle a req
  end.

(** The mount paths of the [app.use(path, router)] calls and the paths of
    the [app.get] calls, in the order of registration. *)
Definition mounts (stack : list layer) : list string :=
  flat_map (fun l => match l with useAt m _ => [m] | _ => [] end) stack.

Definition getRoutes (stack : list layer) : list string :=
  flat_map (fun l => match l with get r _ => [r] | _ => [] end) stack.

(** The response object after the handling of a request, whichever way it
    ended. *)
Definition responseOf (o : outcome) : response :=
  match o with
  | next res | nextErr _ res | sent res | rejects _ res | suspends res
  | entered res => res
  end.

(** The header that grants an origin. *)
Definition allowOrigin (res : response) : option string :=
  resHeaders res !! "Access-Control-Allow-Origin".

(** Every code unit of the string satisfies [p]. *)
Fixpoint allChars (p : ascii -> bool) (s : string) : bool :=
  match s with
  | EmptyString => true
  | String c s' => p c && allChars p s'
  end.



Definition isCall (ev : DB.event) : bool :=
  match ev with
  | DB.callConnectDB => true
  | _ => false
  end.

(** What the registered functions do, by version. *)
Definition run (v : version)
  : ambient -> handler -> request -> option string -> response -> outcome :=
  match v with
  | v1 => V1.run
  | v2 => V2.run
  | v3 => V3.run
  end.


(** No promise chained on a successful [mongoose.connect] is rejected. *)
Definition chainsHold (w : DB.world) : bool :=
  forallb
    (fun c =>
       match DB.connectPromise c, DB.chained c with
       | DB.fulfilled, DB.rejected _ => false
       | _, _ => true
       end)
    (DB.connections w).

(** Every [mongoose.connect] call so far was made with the URI [u]. *)
Definition connectedTo (u : option string) (w : DB.world) : Prop :=
  Forall (fun c => DB.uri c = u) (DB.connections w).

(** [res.getHeader(k)] *)
Definition getHeader (k : string) (res : response) : option string :=
  resHeaders res !! k.


(** * Properties *)

(** ** Strings *)

Lemma truthy_Some (s : string) : JS.truthy (Some s) = true <-> s <> "".
Proof.
  unfold JS.truthy. destruct (String.eqb_spec s ""); simpl; split; congruence.
Qed.

Lemma includes_In (xs : list string) (x : string) :
  JS.includes xs x = true <-> In x xs.
Proof.
  unfold JS.includes. rewrite existsb_exists. split.
  - intros (y & Hy & E). apply String.eqb_eq in E. now subst.
  - intros H. exists x. split; [assumption | apply String.eqb_refl].
Qed.

Lemma filterBoolean_In (xs : list (option string)) (s : string) :
  In s (JS.filterBoolean xs) <-> In (Some s) xs /\ s <> "".
Proof.
  induction xs as [|[t|] xs IH]; simpl.
  - tauto.
  - destruct (String.eqb_spec t ""); simpl; rewrite IH; split.
    + intros [H1 H2]. tauto.
    + intros [[H1|H1] H2]; [congruence | tauto].
    + intros [H|[H1 H2]]; [subst; tauto | tauto].
    + intros [[H1|H1] H2]; [left; congruence | tauto].
  - rewrite IH. split; [tauto | intros [[H|H] H2]; [discriminate | tauto]].
Qed.

Lemma uniq_In (seen xs : list string) (x : string) :
  In x (JS.uniq seen xs) <-> In x xs /\ ~ In x seen.
Proof.
  revert seen. induction xs as [|y xs IH]; intros seen; simpl.
  - tauto.
  - destruct (JS.includes seen y) eqn:E.
    + apply includes_In in E. rewrite IH. split.
      * tauto.
      * intros [[H|H] H']; [subst; tauto | tauto].
    + assert (~ In y seen) as Hy.
      { intros H. apply includes_In in H. congruence. }
      simpl. rewrite IH. simpl. split.
      * intros [H|[H1 H2]]; [subst; tauto | tauto].
      * intros [[H|H] H']; [tauto |].
        destruct (String.eqb_spec y x); [tauto | right; tauto].
Qed.

Lemma uniq_NoDup (seen xs : list string) : List.NoDup (JS.uniq seen xs).
Proof.
  revert seen. induction xs as [|y xs IH]; intros seen; simpl.
  - constructor.
  - destruct (JS.includes seen y); [apply IH |].
    constructor; [| apply IH].
    rewrite uniq_In. simpl. tauto.
Qed.

(** Comparing the lower-cased value with ["true"] is comparing it with
    ["true"] letter case apart. *)
Lemma toLowerCase_true (s : string) :
  String.eqb (JS.toLowerCase s) "true" = JS.eqI "true" s.
Proof.
  assert (forall p, In p ["t"; "r"; "u"; "e"]%char ->
          forall c, Ascii.eqb (JS.toLowerCaseChar c) p = JS.charEqI p c)
    as Hc.
  { intros p Hp c. simpl in Hp.
    destruct Hp as [<-|[<-|[<-|[<-|[]]]]];
      destruct c as [[] [] [] [] [] [] [] []]; vm_compute; reflexivity. }
  destruct s as [|c1 [|c2 [|c3 [|c4 [|c5 s]]]]];
    try reflexivity; simpl;
    rewrite ?(Hc "t"%char), ?(Hc "r"%char), ?(Hc "u"%char), ?(Hc "e"%char)
      by (simpl; tauto);
    repeat match goal with
           | |- context [JS.charEqI ?p ?c] => destruct (JS.charEqI p c)
           end; reflexivity.
Qed.

(** ** The allow-list and the origin callback *)

(** No entry of an allow-list is the empty string. *)
Lemma allowedOrigins_nonempty (v : version) (env : gmap string string)
    (o : string) :
  In o (allowedOrigins v env) -> o <> "".
Proof.
  destruct v; unfold allowedOrigins.
  - unfold V1.allowedOrigins. rewrite filterBoolean_In. tauto.
  - unfold V2.allowedOrigins. rewrite filterBoolean_In. tauto.
  - unfold V3.allowedOrigins. rewrite uniq_In, filterBoolean_In. tauto.
Qed.

(** C8.  When a request has no Origin header, the origin callback of every
    version answers [callback(null, true)]. *)
Theorem origin_undefined_allowed (v : version) (env : gmap string string) :
  origin v env None = cbOk true.
Proof. destruct v; reflexivity. Qed.

(** C5, as the program has it.  Version 1 passes MONGODB_URI to
    [mongoose.connect] and nothing else; versions 2 and 3 take MONGODB_URI
    when it is set and not empty, else MONGO_URI when that is set and not
    empty, else the local default. *)
Theorem mongo_uri_chain (v : version) (env : gmap string string) :
  (v = v1 -> MONGO_URI v env = env !! "MONGODB_URI")
  /\ (v <> v1 ->
      (forall u, env !! "MONGODB_URI" = Some u -> u <> "" ->
                 MONGO_URI v env = Some u)
      /\ (forall u, JS.truthy (env !! "MONGODB_URI") = false ->
                    env !! "MONGO_URI" = Some u -> u <> "" ->
                    MONGO_URI v env = Some u)
      /\ (JS.truthy (env !! "MONGODB_URI") = false ->
          JS.truthy (env !! "MONGO_URI") = false ->
          MONGO_URI v env = Some "mongodb://localhost:27017/quizapp")).
Proof.
  split.
  - intros ->. reflexivity.
  - intros Hv.
    assert (MONGO_URI v env = V2.MONGO_URI env) as ->
      by (destruct v; [congruence | reflexivity | reflexivity]).
    unfold V2.MONGO_URI, JS.or. repeat split.
    + intros u E Hu. rewrite E.
      apply truthy_Some in Hu. now rewrite Hu.
    + intros u E1 E2 Hu. rewrite E1, E2.
      apply truthy_Some in Hu. now rewrite Hu.
    + intros E1 E2. now rewrite E1, E2.
Qed.

Lemma mongo_uri_chain_witness :
  let env : gmap string string := {[ "MONGO_URI" := "mongodb://db/quiz" ]} in
  MONGO_URI v1 env = None
  /\ MONGO_URI v2 env = Some "mongodb://db/quiz"
  /\ MONGO_URI v3 ∅ = Some "mongodb://localhost:27017/quizapp".
Proof.
  intros env. split; [| split].
  - rewrite (proj1 (mongo_uri_chain v1 env) eq_refl). reflexivity.
  - apply (proj2 (mongo_uri_chain v2 env)); [discriminate | reflexivity.. |].
    discriminate.
  - apply (proj2 (mongo_uri_chain v3 ∅)); [discriminate | reflexivity..].
Defined.

(** C5 as stated fails in version 1: with MONGODB_URI unset and MONGO_URI
    set, the URI is [undefined], not the value of MONGO_URI. *)
Lemma mongo_uri_v1_no_fallback :
  let env : gmap string string := {[ "MONGO_URI" := "mongodb://db/quiz" ]} in
  env !! "MONGODB_URI" = None
  /\ env !! "MONGO_URI" = Some "mongodb://db/quiz"
  /\ MONGO_URI v1 env = None.
Proof. vm_compute. repeat split. Qed.

(** C6.  In version 3, an origin that is outside the allow-list and matches
    [https://<something>.vercel.app] is accepted exactly when
    ALLOW_VERCEL_PREVIEWS is ["true"], letter case apart. *)
Theorem vercel_previews_iff (env : gmap string string) (o : string) :
  JS.includes (V3.allowedOrigins env) o = false ->
  JS.isVercelApp o = true ->
  (V3.origin env (Some o) = cbOk true
   <-> exists s, env !! "ALLOW_VERCEL_PREVIEWS" = Some s
                 /\ JS.eqI "true" s = true)
  /\ (V3.origin env (Some o) <> cbOk true ->
      V3.origin env (Some o) = cbError "Not allowed by CORS").
Proof.
  intros Hout Hre.
  assert (JS.truthy (Some o) = true) as Ho.
  { apply truthy_Some. intros ->. discriminate Hre. }
  unfold V3.origin. rewrite Ho, Hout, Hre, andb_true_r. simpl negb. cbv iota.
  assert (V3.allowVercelPreviews env = true
          <-> exists s, env !! "ALLOW_VERCEL_PREVIEWS" = Some s
                        /\ JS.eqI "true" s = true) as Hiff.
  { unfold V3.allowVercelPreviews, JS.or.
    destruct (env !! "ALLOW_VERCEL_PREVIEWS") as [s|] eqn:E.
    - destruct (JS.truthy (Some s)) eqn:Hs; simpl JS.toString.
      + rewrite toLowerCase_true. split; [eauto |].
        intros (s' & [= <-] & H). exact H.
      + assert (s = "") as ->.
        { destruct (String.eqb_spec s ""); [assumption |].
          apply truthy_Some in n. congruence. }
        split; [discriminate |]. intros (s' & [= <-] & H). discriminate H.
    - simpl. split; [discriminate | intros (s' & [=] & _)]. }
  destruct (V3.allowVercelPreviews env); split.
  - split; [intros _; now apply Hiff | reflexivity].
  - congruence.
  - split; [discriminate |]. intros H. apply Hiff in H. discriminate H.
  - reflexivity.
Qed.

Lemma vercel_previews_iff_witness :
  let env : gmap string string := {[ "ALLOW_VERCEL_PREVIEWS" := "True" ]} in
  V3.origin env (Some "https://pr-12.vercel.app") = cbOk true.
Proof.
  intros env.
  apply (vercel_previews_iff env "https://pr-12.vercel.app");
    [vm_compute; reflexivity | vm_compute; reflexivity |].
  exists "True". split; vm_compute; reflexivity.
Defined.

(** ** Routing *)

(** C7.  Every version mounts the six routers at the same six prefixes and
    has the route /api/health; / exists in version 3 only and
    /api/debug/test-nodemailer in versions 2 and 3 only; [notFound] and
    [errorHandler] are the last two registrations, after every route. *)
Theorem route_table (v : version) :
  mounts (app v)
  = ["/api/auth"; "/api/quiz"; "/api/folders"; "/api/bookmarks";
     "/api/students"; "/api/student-quiz"]
  /\ getRoutes (app v)
     = match v with
       | v1 => ["/api/health"]
       | v2 => ["/api/health"; "/api/debug/test-nodemailer"]
       | v3 => ["/"; "/api/health"; "/api/debug/test-nodemailer"]
       end
  /\ exists pre,
       app v = (pre ++ [use notFound; use errorHandler])%list
       /\ mounts pre = mounts (app v)
       /\ getRoutes pre = getRoutes (app v).
Proof.
  destruct v; (split; [reflexivity | split; [reflexivity |]]).
  - exists (removelast (removelast V1.app)). repeat split.
  - exists (removelast (removelast V2.app)). repeat split.
  - exists (removelast (removelast V3.app)). repeat split.
Qed.

(** With an error pending, every version hands the request to
    [errorHandler] and to nothing before it. *)
Lemma dispatch_pending_error (v : version) (a : ambient) (req : request)
    (e : string) (res : response) :
  Express.dispatch
    (match v with v1 => V1.run a | v2 => V2.run a | v3 => V3.run a end)
    (app v) req (Some e) res
  = Express.enteredModule errorHandler (Some e) res.
Proof. destruct v; reflexivity. Qed.

(** ** CORS *)

Lemma origin_listed (v : version) (env : gmap string string) (o : string) :
  In o (allowedOrigins v env) -> origin v env (Some o) = cbOk true.
Proof.
  intros H. pose proof (allowedOrigins_nonempty _ _ _ H) as Hne.
  apply truthy_Some in Hne. apply includes_In in H.
  destruct v; simpl in *.
  - unfold V1.origin. now rewrite Hne, H.
  - unfold V2.origin. now rewrite Hne, H.
  - unfold V3.origin. now rewrite Hne, H.
Qed.

Lemma origin_unlisted (v : version) (env : gmap string string) (o : string) :
  o <> "" ->
  JS.includes (allowedOrigins v env) o = false ->
  (v = v3 -> V3.allowVercelPreviews env && JS.isVercelApp o = false) ->
  origin v env (Some o) = cbError "Not allowed by CORS".
Proof.
  intros Hne H Hv. apply truthy_Some in Hne.
  destruct v; simpl in *.
  - unfold V1.origin. now rewrite Hne, H.
  - unfold V2.origin. now rewrite Hne, H.
  - unfold V3.origin. now rewrite Hne, H, Hv.
Qed.

(** C3, as the program has it.  A request whose Origin header is a
    non-empty string outside the allow-list (and, in version 3, not a
    vercel.app origin while previews are enabled) makes the origin callback
    answer with the error "Not allowed by CORS"; whatever its method, the
    request then goes to [errorHandler] without any other handler having
    touched the response. *)
Theorem cors_blocked (v : version) (a : ambient) (req : request)
    (o : string) :
  headers req !! "origin" = Some o ->
  o <> "" ->
  JS.includes (allowedOrigins v (processEnv a)) o = false ->
  (v = v3 ->
   V3.allowVercelPreviews (processEnv a) && JS.isVercelApp o = false) ->
  origin v (processEnv a) (Some o) = cbError "Not allowed by CORS"
  /\ handle v a req
     = Express.enteredModule errorHandler (Some "Not allowed by CORS")
         Express.freshResponse.
Proof.
  intros Hreq Hne Hout Hv.
  pose proof (origin_unlisted _ _ _ Hne Hout Hv) as Hcb.
  split; [exact Hcb |].
  destruct v; unfold origin in Hcb.
  - unfold handle, V1.handle, V1.app.
    cbn [List.app Express.dispatch Express.applies handlerOf
         Express.isErrorHandler Express.matches negb andb V1.run].
    unfold Cors.corsMiddleware. rewrite Hreq, Hcb.
    exact (dispatch_pending_error v1 a req _ _).
  - unfold handle, V2.handle, V2.app.
    cbn [List.app Express.dispatch Express.applies handlerOf
         Express.isErrorHandler Express.matches negb andb V2.run].
    unfold Cors.corsMiddleware. rewrite Hreq, Hcb.
    exact (dispatch_pending_error v2 a req _ _).
  - unfold handle, V3.handle, V3.app.
    cbn [List.app Express.dispatch Express.applies handlerOf
         Express.isErrorHandler Express.matches negb andb V3.run].
    unfold Cors.corsMiddleware. rewrite Hreq, Hcb.
    exact (dispatch_pending_error v3 a req _ _).
Qed.

Lemma cors_blocked_witness :
  let a := {| processEnv := ∅; createIndexes := true;
              emailService := emailMissing; now := "2025-01-01T00:00:00.000Z";
              parserError := fun _ _ => None;
              connectDBResult := DB.resolved |} in
  let req := {| method := "OPTIONS"; path := "/api/auth/login";
                headers := {[ "origin" := "https://evil.example" ]} |} in
  origin v3 (processEnv a) (Some "https://evil.example")
  = cbError "Not allowed by CORS"
  /\ handle v3 a req
     = Express.enteredModule errorHandler (Some "Not allowed by CORS")
         Express.freshResponse.
Proof.
  intros a req.
  apply (cors_blocked v3 a req "https://evil.example");
    [reflexivity | discriminate | vm_compute; reflexivity |].
  intros _. vm_compute. reflexivity.
Defined.

(** C3 as stated fails for an Origin header that is present and empty: it
    is in no allow-list, yet every origin callback accepts it and the
    request is served. *)
Lemma empty_origin_header_served :
  let a := {| processEnv := ∅; createIndexes := true;
              emailService := emailMissing; now := "2025-01-01T00:00:00.000Z";
              parserError := fun _ _ => None;
              connectDBResult := DB.resolved |} in
  let req := {| method := "GET"; path := "/api/health";
                headers := {[ "origin" := "" ]} |} in
  headers req !! "origin" = Some ""
  /\ Forall (fun v => JS.includes (allowedOrigins v ∅) "" = false
                      /\ origin v ∅ (Some "") = cbOk true
                      /\ exists res, handle v a req
                                     = Express.responded health res)
       [v1; v2; v3].
Proof.
  intros a req. split; [reflexivity |].
  repeat constructor; eexists; vm_compute; reflexivity.
Qed.

(** *** What the handlers do to Access-Control-Allow-Origin *)

Lemma allowOrigin_setHeader (k s : string) (res : response) :
  allowOrigin (setHeader k s res)
  = if String.eqb k "Access-Control-Allow-Origin" then Some s
    else allowOrigin res.
Proof.
  unfold allowOrigin, setHeader. cbn [resHeaders].
  destruct (String.eqb_spec k "Access-Control-Allow-Origin") as [->|Hk].
  - apply lookup_insert_eq.
  - now apply lookup_insert_ne.
Qed.

Lemma allowOrigin_removeHeader (k : string) (res : response) :
  String.eqb k "Access-Control-Allow-Origin" = false ->
  allowOrigin (removeHeader k res) = allowOrigin res.
Proof.
  intros Hk. unfold allowOrigin, removeHeader. cbn [resHeaders].
  apply lookup_delete_ne. intros ->. discriminate Hk.
Qed.

Lemma allowOrigin_status (n : nat) (res : response) :
  allowOrigin (status n res) = allowOrigin res.
Proof. reflexivity. Qed.

Lemma allowOrigin_vary (field : string) (res : response) :
  allowOrigin (Cors.vary field res) = allowOrigin res.
Proof.
  unfold Cors.vary.
  destruct (resHeaders res !! "Vary"); now rewrite allowOrigin_setHeader.
Qed.

Lemma allowOrigin_apply (k : string) (v : option string) (res : response) :
  String.eqb k "Access-Control-Allow-Origin" = false ->
  allowOrigin (Cors.apply k v res) = allowOrigin res.
Proof.
  intros Hk. unfold Cors.apply.
  destruct v as [s|]; [| reflexivity].
  destruct (JS.truthy (Some s)); [| reflexivity].
  now rewrite allowOrigin_setHeader, Hk.
Qed.

Lemma allowOrigin_resJson (j : json) (res : response) :
  allowOrigin (Express.resJson j res) = allowOrigin res.
Proof.
  unfold Express.resJson.
  destruct (resHeaders res !! "Content-Type"); [reflexivity |].
  unfold allowOrigin. cbn [resHeaders].
  change (allowOrigin
            (setHeader "Content-Type" "application/json; charset=utf-8" res)
          = allowOrigin res).
  now rewrite allowOrigin_setHeader.
Qed.

Lemma allowOrigin_sendStatus204 (res : response) :
  allowOrigin (Express.sendStatus204 res) = allowOrigin res.
Proof.
  unfold Express.sendStatus204.
  now rewrite !allowOrigin_removeHeader, allowOrigin_status.
Qed.

(** Pushes [allowOrigin] through the operations on a response. *)
Ltac allow_origin :=
  repeat first
    [ rewrite allowOrigin_setHeader; cbn [String.eqb Ascii.eqb Bool.eqb]
    | rewrite allowOrigin_status
    | rewrite allowOrigin_vary
    | rewrite allowOrigin_resJson
    | rewrite allowOrigin_sendStatus204 ].

(** The cors package reflects a non-empty request origin. *)
Lemma cors_reflects (opts : Cors.options) (req : request) (res : response)
    (o : string) :
  headers req !! "origin" = Some o -> o <> "" ->
  allowOrigin (responseOf (Cors.cors opts req res)) = Some o.
Proof.
  intros Hreq Hne. apply truthy_Some in Hne.
  assert (allowOrigin (Cors.configureOrigin req res) = Some o) as H0.
  { unfold Cors.configureOrigin. rewrite allowOrigin_vary, Hreq.
    unfold Cors.apply. rewrite Hne. now rewrite allowOrigin_setHeader. }
  assert (forall r, allowOrigin r = Some o ->
                    allowOrigin (Cors.configureCredentials opts r) = Some o)
    as Hcred.
  { intros r Hr. unfold Cors.configureCredentials.
    destruct (Cors.credentials opts); [| exact Hr].
    now rewrite allowOrigin_setHeader. }
  unfold Cors.cors. destruct (String.eqb (method req) "OPTIONS");
    cbn [responseOf]; [| now apply Hcred].
  rewrite allowOrigin_setHeader, allowOrigin_status. cbn [String.eqb Ascii.eqb].
  unfold Cors.configureAllowedHeaders, Cors.configureMethods.
  destruct (Cors.allowedHeaders opts);
    rewrite allowOrigin_apply by reflexivity;
    rewrite ?allowOrigin_vary, allowOrigin_setHeader;
    now apply Hcred.
Qed.

(** A property of the response object that every handler keeps is kept by
    the whole handling of a request. *)
Lemma dispatch_keeps (P : response -> Prop)
    (run : handler -> request -> option string -> response -> outcome)
    (req : request) :
  (forall h err res, P res -> P (responseOf (run h req err res))) ->
  forall stack err res,
    P res -> P (Express.resOf (Express.dispatch run stack req err res)).
Proof.
  intros Hrun stack.
  induction stack as [|l stack IH]; intros err res HP; cbn [Express.dispatch].
  - exact HP.
  - destruct (Express.applies l req err); [| now apply IH].
    pose proof (Hrun (handlerOf l) err res HP) as Hstep.
    destruct (run (handlerOf l) req err res); cbn [responseOf] in Hstep;
      cbn [Express.resOf]; auto.
Qed.

(** ... and a property that a first middleware establishes is kept from
    there on. *)
Lemma dispatch_establishes (P : response -> Prop)
    (run : handler -> request -> option string -> response -> outcome)
    (req : request) (h : handler) (stack : list layer) (res : response) :
  Express.isErrorHandler h = false ->
  (forall h err res, P res -> P (responseOf (run h req err res))) ->
  P (responseOf (run h req None res)) ->
  P (Express.resOf (Express.dispatch run (use h :: stack) req None res)).
Proof.
  intros Hh Hrun HP.
  cbn [Express.dispatch Express.applies Express.matches handlerOf].
  rewrite Hh. cbn [negb andb].
  destruct (run h req None res); cbn [responseOf] in HP; cbn [Express.resOf];
    try exact HP; now apply dispatch_keeps.
Qed.

Lemma dispatch_next
    (run : handler -> request -> option string -> response -> outcome)
    (req : request) (h : handler) (stack : list layer) (res res' : response) :
  Express.isErrorHandler h = false ->
  run h req None res = next res' ->
  Express.dispatch run (use h :: stack) req None res
  = Express.dispatch run stack req None res'.
Proof.
  intros Hh Hrun.
  cbn [Express.dispatch Express.applies Express.matches handlerOf].
  now rewrite Hh, Hrun.
Qed.

Section Echo.

Variables (a : ambient) (req : request) (o : string).
Hypothesis Hreq : headers req !! "origin" = Some o.
Hypothesis Hne : o <> "".

Let granted (res : response) : Prop := allowOrigin res = Some o.

Lemma corsMiddleware_keeps (opts : Cors.options)
    (cb : option string -> callbackArgs) (res : response) :
  granted res -> granted (responseOf (Cors.corsMiddleware opts cb req res)).
Proof.
  intros HP. unfold Cors.corsMiddleware.
  destruct (cb (headers req !! "origin")) as [[]|e]; cbn [responseOf];
    [now apply cors_reflects | exact HP | exact HP].
Qed.

Lemma parse_keeps (h : handler) (res : response) :
  granted res -> granted (responseOf (parse a h req res)).
Proof. intros HP. unfold parse. now destruct (parserError a h req). Qed.

Lemma testNodemailer_keeps (res : response) :
  granted res -> granted (responseOf (testNodemailerHandler a res)).
Proof.
  intros HP. unfold testNodemailerHandler.
  destruct (emailService a); cbn [responseOf];
    unfold granted; now allow_origin.
Qed.

Lemma health_keeps (res : response) :
  granted res -> granted (responseOf (healthHandler res)).
Proof.
  intros HP. unfold healthHandler, granted. cbn [responseOf].
  now allow_origin.
Qed.

Lemma run_v1_keeps (h : handler) (err : option string) (res : response) :
  granted res -> granted (responseOf (V1.run a h req err res)).
Proof.
  intros HP.
  destruct h; cbn [V1.run responseOf];
    auto using corsMiddleware_keeps, parse_keeps, health_keeps.
  - unfold V1.fallback. rewrite Hreq.
    destruct (JS.truthy (Some o) && JS.includes _ o);
      destruct (String.eqb (method req) "OPTIONS"); cbn [responseOf];
      unfold granted; now allow_origin.
  - unfold V1.ensureDBHandler. now destruct (connectDBResult a).
Qed.

Lemma run_v2_keeps (h : handler) (err : option string) (res : response) :
  granted res -> granted (responseOf (V2.run a h req err res)).
Proof.
  intros HP.
  destruct h; cbn [V2.run responseOf];
    auto using corsMiddleware_keeps, parse_keeps, health_keeps,
      testNodemailer_keeps.
  - unfold V2.fallback. rewrite Hreq.
    destruct (JS.truthy (Some o) && JS.includes _ o);
      destruct (String.eqb (method req) "OPTIONS"); cbn [responseOf];
      unfold granted; now allow_origin.
  - unfold V2.ensureDBHandler. now destruct (connectDBResult a).
Qed.

Lemma run_v3_keeps (h : handler) (err : option string) (res : response) :
  granted res -> granted (responseOf (V3.run a h req err res)).
Proof.
  intros HP.
  destruct h; cbn [V3.run responseOf];
    auto using corsMiddleware_keeps, parse_keeps, health_keeps,
      testNodemailer_keeps.
  - unfold V3.rootHandler, granted. cbn [responseOf].
    now allow_origin.
  - unfold V3.ensureDBHandler. now destruct (connectDBResult a).
Qed.

(** Once the origin callback has accepted the request, the response
    object carries the origin from the cors middleware on. *)
Lemma accepted_origin_echoed (v : version) :
  origin v (processEnv a) (Some o) = cbOk true ->
  allowOrigin (Express.resOf (handle v a req)) = Some o.
Proof.
  intros Hcb.
  destruct v; unfold origin in Hcb.
  - apply (dispatch_establishes granted (V1.run a) req corsHandler);
      [reflexivity | exact run_v1_keeps |].
    cbn [V1.run]. unfold Cors.corsMiddleware. rewrite Hreq, Hcb.
    now apply cors_reflects.
  - apply (dispatch_establishes granted (V2.run a) req corsHandler);
      [reflexivity | exact run_v2_keeps |].
    cbn [V2.run]. unfold Cors.corsMiddleware. rewrite Hreq, Hcb.
    now apply cors_reflects.
  - unfold handle, V3.handle, V3.app. cbn [List.app].
    rewrite (dispatch_next (V3.run a) req originLogger _ _
               Express.freshResponse eq_refl eq_refl).
    apply (dispatch_establishes granted (V3.run a) req corsHandler);
      [reflexivity | exact run_v3_keeps |].
    cbn [V3.run]. unfold Cors.corsMiddleware. rewrite Hreq, Hcb.
    now apply cors_reflects.
Qed.

End Echo.

(** C2.  When the Origin header of a request is an element of
    [allowedOrigins], the origin callback answers [callback(null, true)]
    and the response object carries Access-Control-Allow-Origin with that
    very string, however the handling of the request ends. *)
Theorem allowed_origin_echoed (v : version) (a : ambient) (req : request)
    (o : string) :
  headers req !! "origin" = Some o ->
  In o (allowedOrigins v (processEnv a)) ->
  origin v (processEnv a) (headers req !! "origin") = cbOk true
  /\ allowOrigin (Express.resOf (handle v a req)) = Some o.
Proof.
  intros Hreq Hin. rewrite Hreq.
  pose proof (origin_listed _ _ _ Hin) as Hcb.
  split; [exact Hcb |].
  apply accepted_origin_echoed; eauto using allowedOrigins_nonempty.
Qed.

Lemma allowed_origin_echoed_witness :
  let a := {| processEnv :=
                {[ "VERCEL_URL" := "smartai-git-main.vercel.app/" ]};
              createIndexes := true;
              emailService := emailMissing; now := "2025-01-01T00:00:00.000Z";
              parserError := fun _ _ => None;
              connectDBResult := DB.resolved |} in
  let req := {| method := "POST"; path := "/api/quiz";
                headers :=
                  {[ "origin" := "https://smartai-git-main.vercel.app" ]} |} in
  origin v3 (processEnv a) (headers req !! "origin") = cbOk true
  /\ allowOrigin (Express.resOf (handle v3 a req))
     = Some "https://smartai-git-main.vercel.app".
Proof.
  intros a req.
  apply (allowed_origin_echoed v3 a req "https://smartai-git-main.vercel.app");
    [reflexivity |].
  vm_compute. tauto.
Defined.

(** ** The health route *)


Lemma dispatch_pass
    (run : handler -> request -> option string -> response -> outcome)
    (l : layer) (stack : list layer) (req : request) (err : option string)
    (res res' : response) :
  Express.applies l req err = true ->
  run (handlerOf l) req err res = next res' ->
  Express.dispatch run (l :: stack) req err res
  = Express.dispatch run stack req err res'.
Proof. intros H E. cbn [Express.dispatch]. now rewrite H, E. Qed.

Lemma dispatch_sent
    (run : handler -> request -> option string -> response -> outcome)
    (l : layer) (stack : list layer) (req : request) (err : option string)
    (res res' : response) :
  Express.applies l req err = true ->
  run (handlerOf l) req err res = sent res' ->
  Express.dispatch run (l :: stack) req err res
  = Express.responded (handlerOf l) res'.
Proof. intros H E. cbn [Express.dispatch]. now rewrite H, E. Qed.






Section Health.

Variables (a : ambient) (hs : gmap string string).

Let req : request :=
  {| method := "GET"; path := "/api/health"; headers := hs |}.

Hypothesis Hparse : forall h, parserError a h req = None.
Hypothesis Hdb : connectDBResult a = DB.resolved.








End Health.



(** ** Normalisation of allow-list entries *)

Lemma dropEnd_cons (p : ascii -> bool) (c : ascii) (s : string) :
  JS.dropEnd p (String c s)
  = match JS.dropEnd p s with
    | EmptyString => if p c then EmptyString else String c EmptyString
    | String _ _ as t => String c t
    end.
Proof. reflexivity. Qed.

Lemma dropEnd_idem (p : ascii -> bool) (s : string) :
  JS.dropEnd p (JS.dropEnd p s) = JS.dropEnd p s.
Proof.
  induction s as [|c s IH]; [reflexivity |].
  rewrite dropEnd_cons.
  destruct (JS.dropEnd p s) as [|d t] eqn:E.
  - destruct (p c) eqn:Hc; [reflexivity |]. rewrite dropEnd_cons.
    cbn [JS.dropEnd]. now rewrite Hc.
  - rewrite dropEnd_cons. now rewrite IH.
Qed.

Lemma dropEnd_append (p : ascii -> bool) (pre s : string) :
  JS.dropEnd p s <> "" ->
  JS.dropEnd p (pre ++ s) = pre ++ JS.dropEnd p s.
Proof.
  intros Hs. induction pre as [|c pre IH]; [reflexivity |].
  change (String c pre ++ s) with (String c (pre ++ s)).
  change (String c pre ++ JS.dropEnd p s)
    with (String c (pre ++ JS.dropEnd p s)).
  rewrite dropEnd_cons, IH.
  destruct (pre ++ JS.dropEnd p s) as [|d t] eqn:E; [| reflexivity].
  destruct pre; [contradiction | discriminate].
Qed.

Lemma hasHttpScheme_not_blank (s : string) :
  JS.hasHttpScheme s = true ->
  s <> "" /\ JS.dropStart JS.isWhiteSpace s = s.
Proof.
  destruct s as [|c s]; [discriminate |].
  intros H. split; [discriminate |].
  cbn [JS.dropStart].
  assert (JS.charEqI "h" c = true -> JS.isWhiteSpace c = false) as Hc.
  { destruct c as [[] [] [] [] [] [] [] []]; vm_compute; congruence. }
  unfold JS.hasHttpScheme in H. cbn [JS.stripPrefixI] in H.
  destruct (JS.charEqI "h" c); [| discriminate]. now rewrite Hc.
Qed.

Lemma hasHttpScheme_https (s : string) :
  JS.hasHttpScheme ("https://" ++ s) = true.
Proof. reflexivity. Qed.

(** What [normalizeOriginEntry] computes on a truthy entry. *)
Lemma normalizeOriginEntry_truthy (s : string) :
  s <> "" ->
  V3.normalizeOriginEntry (Some s)
  = let t := JS.stripTrailingSlashes (JS.trim s) in
    if JS.hasHttpScheme t then Some t else Some ("https://" ++ t).
Proof.
  intros Hs. apply truthy_Some in Hs.
  unfold V3.normalizeOriginEntry. now rewrite Hs.
Qed.

(** An entry that has its scheme, no white space around it and no slash at
    its end is left as it is. *)
Lemma normalizeOriginEntry_fixed (r : string) :
  JS.hasHttpScheme r = true ->
  JS.dropEnd JS.isWhiteSpace r = r ->
  JS.stripTrailingSlashes r = r ->
  V3.normalizeOriginEntry (Some r) = Some r.
Proof.
  intros Hscheme Hws Hslash.
  destruct (hasHttpScheme_not_blank r Hscheme) as [Hne Hstart].
  rewrite normalizeOriginEntry_truthy by exact Hne.
  unfold JS.trim. cbv zeta. now rewrite Hstart, Hws, Hslash, Hscheme.
Qed.

Lemma normalizeOriginEntry_result (e : option string) (r : string) :
  V3.normalizeOriginEntry e = Some r ->
  JS.hasHttpScheme r = true
  /\ r <> ""
  /\ (JS.stripTrailingSlashes (JS.trim (JS.toString e)) <> "" ->
      JS.stripTrailingSlashes r = r).
Proof.
  unfold V3.normalizeOriginEntry.
  destruct (JS.truthy e); cbn [negb]; [| discriminate].
  set (t := JS.stripTrailingSlashes (JS.trim (JS.toString e))).
  assert (JS.stripTrailingSlashes t = t) as Ht by apply dropEnd_idem.
  destruct (JS.hasHttpScheme t) eqn:Hscheme; intros [= <-].
  - split; [exact Hscheme |]. split; [| intros _; exact Ht].
    now apply hasHttpScheme_not_blank.
  - split; [reflexivity |]. split; [discriminate |].
    intros Hne. unfold JS.stripTrailingSlashes in *.
    rewrite dropEnd_append; rewrite Ht; [reflexivity | exact Hne].
Qed.

(** *** Where [normalizeOriginEntry] is not idempotent *)

Lemma dropEnd_shorter (p : ascii -> bool) (s : string) :
  JS.dropEnd p s = s \/ String.length (JS.dropEnd p s) < String.length s.
Proof.
  induction s as [|c s IH]; [now left |].
  rewrite dropEnd_cons.
  destruct (JS.dropEnd p s) as [|d t] eqn:E.
  - destruct s as [|c' s'].
    + destruct (p c); [right; cbn; lia | now left].
    + right. destruct (p c); cbn; lia.
  - destruct IH as [<-|IH]; [now left |].
    right. cbn in *. lia.
Qed.

Lemma dropEnd_append_blank (p : ascii -> bool) (pre s : string) :
  JS.dropEnd p s = "" ->
  JS.dropEnd p (pre ++ s) = JS.dropEnd p pre.
Proof.
  intros Hs. induction pre as [|c pre IH]; [exact Hs |].
  change (String c pre ++ s) with (String c (pre ++ s)).
  now rewrite !dropEnd_cons, IH.
Qed.

(** Putting [https://] in front of an entry never gives a fixed point of
    "trim, drop the slashes at the end" unless the entry has a scheme
    already. *)
Lemma https_prefix_moves (t : string) :
  JS.hasHttpScheme t = false ->
  JS.stripTrailingSlashes (JS.dropEnd JS.isWhiteSpace ("https://" ++ t))
  <> t.
Proof.
  intros Hscheme Heq. unfold JS.stripTrailingSlashes in Heq.
  destruct (JS.dropEnd JS.isWhiteSpace t) as [|c1 w1] eqn:Hw.
  - rewrite dropEnd_append_blank in Heq by exact Hw.
    vm_compute in Heq. subst t. vm_compute in Hw. discriminate Hw.
  - rewrite dropEnd_append in Heq by (rewrite Hw; discriminate).
    rewrite Hw in Heq.
    destruct (JS.dropEnd JS.isSlash (String c1 w1)) as [|c2 w2] eqn:Hs.
    + rewrite dropEnd_append_blank in Heq by exact Hs.
      vm_compute in Heq. subst t. vm_compute in Hw.
      injection Hw as <- <-. vm_compute in Hs. discriminate Hs.
    + rewrite dropEnd_append in Heq by (rewrite Hs; discriminate).
      rewrite Hs in Heq. subst t.
      rewrite hasHttpScheme_https in Hscheme. discriminate Hscheme.
Qed.

(** An entry that has its scheme and ends in white space is changed. *)
Lemma normalizeOriginEntry_moves (r : string) :
  JS.hasHttpScheme r = true ->
  JS.dropEnd JS.isWhiteSpace r <> r ->
  V3.normalizeOriginEntry (Some r) <> Some r.
Proof.
  intros Hscheme Hws.
  destruct (hasHttpScheme_not_blank r Hscheme) as [Hne Hstart].
  rewrite normalizeOriginEntry_truthy by exact Hne.
  unfold JS.trim. cbv zeta. rewrite Hstart.
  destruct (JS.hasHttpScheme
              (JS.stripTrailingSlashes (JS.dropEnd JS.isWhiteSpace r)))
    eqn:Hscheme2; intros [= Heq].
  - pose proof (dropEnd_shorter JS.isWhiteSpace r) as [H1|H1];
      [contradiction |].
    pose proof (dropEnd_shorter JS.isSlash (JS.dropEnd JS.isWhiteSpace r))
      as [H2|H2];
      unfold JS.stripTrailingSlashes in Heq;
      [rewrite H2 in Heq; contradiction |].
    rewrite Heq in H2. lia.
  - set (t := JS.stripTrailingSlashes (JS.dropEnd JS.isWhiteSpace r)) in *.
    apply (https_prefix_moves t Hscheme2). fold t in Heq.
    unfold t at 2. now rewrite <- Heq.
Qed.

(** The entries on which a second application changes nothing. *)
Lemma normalizeOriginEntry_idempotent_iff (s : string) :
  s <> "" ->
  let t := JS.stripTrailingSlashes (JS.trim s) in
  V3.normalizeOriginEntry (V3.normalizeOriginEntry (Some s))
  = V3.normalizeOriginEntry (Some s)
  <-> t <> "" /\ JS.dropEnd JS.isWhiteSpace t = t.
Proof.
  intros Hs t.
  rewrite normalizeOriginEntry_truthy by exact Hs. cbv zeta. fold t.
  assert (JS.stripTrailingSlashes t = t) as Hslash by apply dropEnd_idem.
  split.
  - intros Hidem.
    destruct (string_dec t "") as [Et|Et].
    { rewrite Et in Hidem. vm_compute in Hidem. discriminate Hidem. }
    split; [exact Et |].
    destruct (string_dec (JS.dropEnd JS.isWhiteSpace t) t) as [Ews|Ews];
      [exact Ews | exfalso].
    destruct (JS.hasHttpScheme t) eqn:Hscheme.
    + now apply (normalizeOriginEntry_moves t).
    + apply (normalizeOriginEntry_moves ("https://" ++ t));
        [apply hasHttpScheme_https | | exact Hidem].
      destruct (JS.dropEnd JS.isWhiteSpace t) as [|c w] eqn:Hw.
      * rewrite dropEnd_append_blank by exact Hw.
        destruct t; [contradiction | discriminate].
      * rewrite dropEnd_append by (rewrite Hw; discriminate).
        rewrite Hw. intros [= E]. now apply Ews.
  - intros [Hne Hws].
    destruct (JS.hasHttpScheme t) eqn:Hscheme.
    + now apply normalizeOriginEntry_fixed.
    + apply normalizeOriginEntry_fixed.
      * apply hasHttpScheme_https.
      * rewrite dropEnd_append; rewrite Hws; [reflexivity | exact Hne].
      * unfold JS.stripTrailingSlashes in *.
        rewrite dropEnd_append; rewrite Hslash; [reflexivity | exact Hne].
Qed.

(** C9, as the program has it.  On a falsy entry [normalizeOriginEntry]
    is idempotent; on any other entry it is idempotent exactly when the
    trimmed entry, with the slashes at its end removed, is not empty and
    does not end in white space.  Every result that is not null begins
    with [http://] or [https://], letter case apart, and it has no slash
    at its end when the trimmed entry is more than slashes.  The
    allow-list of version 3 has no duplicates, and each of its entries is
    the non-null result of [normalizeOriginEntry] on a raw entry. *)
Theorem normalizeOriginEntry_normal :
  (forall e : option string,
      JS.truthy e = false ->
      V3.normalizeOriginEntry (V3.normalizeOriginEntry e)
      = V3.normalizeOriginEntry e)
  /\ (forall s : string,
         s <> "" ->
         let t := JS.stripTrailingSlashes (JS.trim s) in
         V3.normalizeOriginEntry (V3.normalizeOriginEntry (Some s))
         = V3.normalizeOriginEntry (Some s)
         <-> t <> "" /\ JS.dropEnd JS.isWhiteSpace t = t)
  /\ (forall (e : option string) (r : string),
         V3.normalizeOriginEntry e = Some r ->
         JS.hasHttpScheme r = true
         /\ r <> ""
         /\ (JS.stripTrailingSlashes (JS.trim (JS.toString e)) <> "" ->
             JS.stripTrailingSlashes r = r))
  /\ (forall env : gmap string string,
         List.NoDup (V3.allowedOrigins env)
         /\ forall o, In o (V3.allowedOrigins env) ->
                      exists e, In e (V3.rawAllowlist env)
                                /\ V3.normalizeOriginEntry e = Some o).
Proof.
  split; [| split; [| split]].
  - intros e He. unfold V3.normalizeOriginEntry at 2 3. now rewrite He.
  - apply normalizeOriginEntry_idempotent_iff.
  - apply normalizeOriginEntry_result.
  - intros env. split; [apply uniq_NoDup |].
    intros o Ho. unfold V3.allowedOrigins in Ho.
    apply uniq_In in Ho. destruct Ho as [Ho _].
    apply filterBoolean_In in Ho. destruct Ho as [Ho _].
    apply in_map_iff in Ho. destruct Ho as (e & E & He). eauto.
Qed.

Lemma normalizeOriginEntry_normal_witness :
  V3.normalizeOriginEntry (V3.normalizeOriginEntry (Some " Example.com// "))
  = V3.normalizeOriginEntry (Some " Example.com// ")
  /\ V3.normalizeOriginEntry (Some " Example.com// ")
     = Some "https://Example.com".
Proof.
  split; [| reflexivity].
  apply (proj1 (proj2 normalizeOriginEntry_normal) " Example.com// ");
    [discriminate |].
  split; [discriminate | reflexivity].
Defined.

(** C9 as stated fails.  The entry ["/"] becomes ["https://"], which ends in
    a slash and which a second application turns into ["https://https:"];
    the entry ["a /"] keeps a space that a second application removes; and
    a scheme in capitals is kept in capitals. *)
Lemma normalizeOriginEntry_not_idempotent :
  V3.normalizeOriginEntry (Some "/") = Some "https://"
  /\ V3.normalizeOriginEntry (V3.normalizeOriginEntry (Some "/"))
     = Some "https://https:"
  /\ V3.normalizeOriginEntry (Some "a /") = Some "https://a "
  /\ V3.normalizeOriginEntry (V3.normalizeOriginEntry (Some "a /"))
     = Some "https://a"
  /\ V3.normalizeOriginEntry (Some "HTTP://x.y/") = Some "HTTP://x.y"
  /\ In "https://"
       (V3.allowedOrigins {[ "CLIENT_URL" := "/" ]}).
Proof. vm_compute. tauto. Qed.

(** ** The database connection *)

(** The worlds that a process can be in: nothing was tried yet; the one
    [mongoose.connect] call is in flight; it failed; it succeeded, after
    which the connection may be lost and come back. *)
Inductive shape : DB.world -> Prop :=
| idle : shape DB.init
| connecting (u : option string) :
    shape {| DB.readyState := 2;
             DB.connections :=
               [{| DB.uri := u; DB.connectPromise := DB.pending;
                   DB.chained := DB.pending |}];
             DB.globalPromise := Some 0 |}
| failed (u : option string) (e : string) :
    shape {| DB.readyState := 0;
             DB.connections :=
               [{| DB.uri := u; DB.connectPromise := DB.rejected e;
                   DB.chained := DB.rejected e |}];
             DB.globalPromise := Some 0 |}
| connected (u : option string) (chain : DB.promise) (up : bool) :
    shape {| DB.readyState := if up then 1 else 0;
             DB.connections :=
               [{| DB.uri := u; DB.connectPromise := DB.fulfilled;
                   DB.chained := chain |}];
             DB.globalPromise := Some 0 |}.

Lemma step_shape (v : version) (env : gmap string string) (ci : bool)
    (w : DB.world) (ev : DB.event) :
  shape w -> shape (DB.step (db v env ci) w ev).
Proof.
  intros H.
  destruct H as [|u|u e|u chain [|]];
    destruct ev as [|[|i] [e'|]|[|i] [e'|]| |];
    destruct v; cbn;
    try constructor;
    try apply (connected _ _ true); try apply (connected _ _ false);
    destruct chain; cbn;
    first [apply (connected _ _ true) | apply (connected _ _ false)].
Qed.

Lemma exec_shape (v : version) (env : gmap string string) (ci : bool)
    (trace : list DB.event) (w : DB.world) :
  shape w -> shape (DB.exec (db v env ci) trace w).
Proof.
  revert w. induction trace as [|ev trace IH]; intros w H; cbn.
  - exact H.
  - now apply IH, step_shape.
Qed.

(** What [connectDB] does in each of these worlds, in every version: it
    connects when nothing was tried, and otherwise changes nothing. *)
Lemma connectDB_shape (v : version) (env : gmap string string) (ci : bool)
    (w : DB.world) :
  shape w ->
  (w = DB.init /\ DB.connectCalls (fst (DB.connectDB (db v env ci) w)) = 1)
  \/ (DB.globalPromise w = Some 0
      /\ DB.connectCalls w = 1
      /\ DB.connectDB (db v env ci) w
         = (w, if (DB.readyState w =? 1)%nat then DB.returned
               else DB.awaiting 0)).
Proof.
  intros H. destruct H as [|u|u e|u chain [|]].
  - left. split; [reflexivity |]. now destruct v.
  - right. repeat split. now destruct v.
  - right. repeat split. now destruct v.
  - right. repeat split. now destruct v.
  - right. repeat split. now destruct v.
Qed.

Lemma step_global (v : version) (env : gmap string string) (ci : bool)
    (w : DB.world) (ev : DB.event) :
  shape w ->
  DB.globalPromise w = Some 0 ->
  DB.globalPromise (DB.step (db v env ci) w ev) = Some 0.
Proof.
  intros H Hg.
  destruct H as [|u|u e|u chain [|]]; [discriminate Hg | ..];
    destruct ev as [|[|i] [e'|]|[|i] [e'|]| |];
    destruct v; cbn; try reflexivity;
    destruct chain; reflexivity.
Qed.

Lemma exec_global (v : version) (env : gmap string string) (ci : bool)
    (trace : list DB.event) (w : DB.world) :
  shape w ->
  DB.globalPromise w = Some 0 ->
  DB.globalPromise (DB.exec (db v env ci) trace w) = Some 0.
Proof.
  revert w. induction trace as [|ev trace IH]; intros w H Hg; cbn.
  - exact Hg.
  - apply IH; [now apply step_shape | now apply step_global].
Qed.

Lemma shape_calls (w : DB.world) :
  shape w ->
  DB.connectCalls w = match DB.globalPromise w with Some _ => 1 | None => 0 end
  /\ (forall p, DB.globalPromise w = Some p -> p = 0).
Proof.
  intros H. destruct H; split; try reflexivity; cbn; congruence.
Qed.

(** C1.  Whatever happens in a process, [mongoose.connect] is called at
    most once.  In any world where [readyState] is 1, [connectDB] returns
    without doing anything.  Once the global promise is set it stays that
    same promise, and every later [connectDB] call either returns at once
    ([readyState] is 1) or awaits it, and leaves the world as it is: no
    other connection is started. *)
Theorem connect_at_most_once (v : version) (env : gmap string string)
    (ci : bool) (trace : list DB.event) :
  let P := db v env ci in
  let w := DB.exec P trace DB.init in
  DB.connectCalls w <= 1
  /\ (forall w0,
        DB.readyState w0 = 1 -> DB.connectDB P w0 = (w0, DB.returned))
  /\ (forall p,
        DB.globalPromise w = Some p ->
        forall more,
          let w' := DB.exec P more w in
          DB.globalPromise w' = Some p
          /\ DB.connectCalls w' = 1
          /\ DB.connectDB P w'
             = (w', if (DB.readyState w' =? 1)%nat then DB.returned
                    else DB.awaiting p)).
Proof.
  intros P w.
  assert (shape w) as Hw by apply exec_shape, idle.
  destruct (shape_calls w Hw) as [Hcalls Hzero].
  split; [| split].
  - rewrite Hcalls. destruct (DB.globalPromise w); lia.
  - intros w0 Hrs. unfold P.
    destruct v; cbn; unfold V1.connectDB, V2.connectDB, V3.connectDB;
      now rewrite Hrs.
  - intros p Hp more w'. pose proof (Hzero p Hp) as ->.
    assert (shape w') as Hw' by now apply exec_shape.
    assert (DB.globalPromise w' = Some 0) as Hg' by now apply exec_global.
    split; [exact Hg' |].
    destruct (shape_calls w' Hw') as [Hcalls' _].
    rewrite Hg' in Hcalls'. split; [exact Hcalls' |].
    destruct (connectDB_shape v env ci w' Hw') as [[E _]|(_ & _ & E)].
    + rewrite E in Hg'. discriminate Hg'.
    + exact E.
Qed.

Lemma connect_at_most_once_witness :
  let P := db v1 ∅ true in
  let w := DB.exec P [DB.callConnectDB; DB.callConnectDB] DB.init in
  let w' := DB.exec P [DB.connectSettles 0 None; DB.connectionLost;
                       DB.callConnectDB] w in
  DB.connectDB P w = (w, DB.awaiting 0)
  /\ DB.globalPromise w' = Some 0
  /\ DB.connectCalls w' = 1
  /\ DB.connectDB P w' = (w', DB.awaiting 0).
Proof.
  intros P w w'.
  pose proof (connect_at_most_once v1 ∅ true
                [DB.callConnectDB; DB.callConnectDB]) as H.
  cbv zeta in H. destruct H as (_ & _ & H).
  pose proof (H 0 eq_refl []) as (_ & _ & Hcall).
  pose proof (H 0 eq_refl [DB.connectSettles 0 None; DB.connectionLost;
                           DB.callConnectDB]) as (Hg & Hc & Hcall').
  repeat split; assumption.
Defined.

(** In the world where the connect attempt has failed, nothing changes any
    more. *)
Lemma failed_is_final (v : version) (env : gmap string string) (ci : bool)
    (u : option string) (e : string) (trace : list DB.event) :
  let w := {| DB.readyState := 0;
              DB.connections :=
                [{| DB.uri := u; DB.connectPromise := DB.rejected e;
                    DB.chained := DB.rejected e |}];
              DB.globalPromise := Some 0 |} in
  DB.exec (db v env ci) trace w = w.
Proof.
  intros w. induction trace as [|ev trace IH]; [reflexivity |].
  cbn [DB.exec fold_left]. 
  assert (DB.step (db v env ci) w ev = w) as ->; [| exact IH].
  destruct ev as [|[|i] [e'|]|[|i] [e'|]| |]; destruct v; reflexivity.
Qed.

(** C10.  If the first [mongoose.connect] attempt is rejected with [e],
    then from there on every [connectDB] call awaits the global promise,
    which is rejected with [e]; the call changes nothing, and the number
    of [mongoose.connect] calls stays 1. *)
Theorem failed_connect_is_cached (v : version) (env : gmap string string)
    (ci : bool) (trace : list DB.event) (e : string) :
  let P := db v env ci in
  let w := DB.exec P trace DB.init in
  (exists c, DB.connections w !! 0 = Some c
             /\ DB.connectPromise c = DB.rejected e) ->
  forall more,
    let w' := DB.exec P more w in
    DB.connectDB P w' = (w', DB.awaiting 0)
    /\ DB.outcomeOf w' (DB.awaiting 0) = DB.threw e
    /\ DB.globalPromise w' = Some 0
    /\ DB.connectCalls w' = 1.
Proof.
  intros P w (c & Hc & Hrej) more w'.
  assert (shape w) as Hw by apply exec_shape, idle.
  assert (exists u,
             w = {| DB.readyState := 0;
                    DB.connections :=
                      [{| DB.uri := u; DB.connectPromise := DB.rejected e;
                          DB.chained := DB.rejected e |}];
                    DB.globalPromise := Some 0 |}) as [u Ew].
  { destruct Hw as [|u|u e0|u chain up]; cbn in Hc;
      try discriminate Hc; injection Hc as <-; cbn in Hrej;
      try discriminate Hrej.
    injection Hrej as ->. now exists u. }
  assert (w' = w) as ->.
  { unfold w', P. rewrite Ew. apply failed_is_final. }
  rewrite Ew. repeat split. unfold P. now destruct v.
Qed.

Lemma failed_connect_is_cached_witness :
  let P := db v2 ∅ true in
  let w := DB.exec P [DB.callConnectDB;
                      DB.connectSettles 0 (Some "ECONNREFUSED")] DB.init in
  let w' := DB.exec P [DB.callConnectDB; DB.reconnected;
                       DB.callConnectDB] w in
  DB.connectDB P w' = (w', DB.awaiting 0)
  /\ DB.outcomeOf w' (DB.awaiting 0) = DB.threw "ECONNREFUSED"
  /\ DB.globalPromise w' = Some 0
  /\ DB.connectCalls w' = 1.
Proof.
  intros P w w'.
  apply (failed_connect_is_cached v2 ∅ true
           [DB.callConnectDB; DB.connectSettles 0 (Some "ECONNREFUSED")]
           "ECONNREFUSED").
  eexists. split; reflexivity.
Defined.

(** * Further properties of the entry point *)

(** ** The middleware in front of the routes *)

(** The origin callback has two answers only. *)
Lemma origin_answers (v : version) (env : gmap string string)
    (o : option string) :
  origin v env o = cbOk true \/ origin v env o = cbError "Not allowed by CORS".
Proof.
  destruct v; unfold origin, V1.origin, V2.origin, V3.origin;
    (destruct o as [o|]; [| now left]);
    (destruct (negb (JS.truthy (Some o))); [now left |]);
    (destruct (JS.includes _ o); [now left |]); try (now right).
  destruct (V3.allowVercelPreviews env && JS.isVercelApp o);
    [now left | now right].
Qed.

Lemma dispatch_fail
    (run : handler -> request -> option string -> response -> outcome)
    (l : layer) (stack : list layer) (req : request) (err : option string)
    (res res' : response) (e : string) :
  Express.applies l req err = true ->
  run (handlerOf l) req err res = nextErr e res' ->
  Express.dispatch run (l :: stack) req err res
  = Express.dispatch run stack req (Some e) res'.
Proof. intros H E. cbn [Express.dispatch]. now rewrite H, E. Qed.

(** A request that the origin callback refuses goes to [errorHandler]
    with the response object untouched. *)
Lemma handle_refused (v : version) (a : ambient) (req : request)
    (e : string) :
  origin v (processEnv a) (headers req !! "origin") = cbError e ->
  handle v a req
  = Express.enteredModule errorHandler (Some e) Express.freshResponse.
Proof.
  intros Hcb.
  assert (forall opts cb res,
             cb (headers req !! "origin") = cbError e ->
             Cors.corsMiddleware opts cb req res = nextErr e res) as Hmw.
  { intros opts cb res E. unfold Cors.corsMiddleware. now rewrite E. }
  destruct v; unfold origin in Hcb.
  - unfold handle, V1.handle, V1.app. cbn [List.app].
    rewrite (dispatch_fail (V1.run a) (use corsHandler) _ req None _ _ e
               eq_refl (Hmw _ _ _ Hcb)).
    exact (dispatch_pending_error v1 a req _ _).
  - unfold handle, V2.handle, V2.app. cbn [List.app].
    rewrite (dispatch_fail (V2.run a) (use corsHandler) _ req None _ _ e
               eq_refl (Hmw _ _ _ Hcb)).
    exact (dispatch_pending_error v2 a req _ _).
  - unfold handle, V3.handle, V3.app. cbn [List.app].
    rewrite (dispatch_pass (V3.run a) (use originLogger) _ req None _ _
               eq_refl eq_refl).
    rewrite (dispatch_fail (V3.run a) (use corsHandler) _ req None _ _ e
               eq_refl (Hmw _ _ _ Hcb)).
    exact (dispatch_pending_error v3 a req _ _).
Qed.

Lemma body_vary (field : string) (res : response) :
  body (Cors.vary field res) = body res.
Proof. unfold Cors.vary. now destruct (resHeaders res !! "Vary"). Qed.

Lemma body_apply (k : string) (v : option string) (res : response) :
  body (Cors.apply k v res) = body res.
Proof.
  unfold Cors.apply. destruct v as [s|]; [| reflexivity].
  now destruct (JS.truthy (Some s)).
Qed.

(** What the cors package sends for a preflight request that the origin
    callback accepted. *)
Lemma cors_preflight (opts : Cors.options) (req : request) (res : response) :
  method req = "OPTIONS" ->
  exists res',
    Cors.cors opts req res = sent res'
    /\ statusCode res' = 204
    /\ body res' = body res
    /\ resHeaders res' !! "Content-Length" = Some "0".
Proof.
  intros Hm. unfold Cors.cors. rewrite Hm. cbn [String.eqb Ascii.eqb Bool.eqb].
  eexists. split; [reflexivity |]. split; [reflexivity |].
  split; [| apply lookup_insert_eq].
  cbn [body setHeader status].
  unfold Cors.configureAllowedHeaders, Cors.configureMethods,
    Cors.configureCredentials, Cors.configureOrigin.
  destruct (Cors.allowedHeaders opts), (Cors.credentials opts);
    now rewrite ?body_apply, ?body_vary; cbn [body setHeader];
    rewrite ?body_vary, ?body_apply.
Qed.

(** X2.  A preflight request never gets past the cors middleware: either
    the origin callback accepts it and cors answers 204 without a body,
    or it goes to [errorHandler] with the CORS error.  No parser, no
    database connection and no route sees an OPTIONS request. *)
Theorem preflight_ends_at_cors (v : version) (a : ambient) (req : request) :
  method req = "OPTIONS" ->
  (origin v (processEnv a) (headers req !! "origin") = cbOk true
   /\ exists res,
        handle v a req = Express.responded corsHandler res
        /\ statusCode res = 204
        /\ body res = None
        /\ resHeaders res !! "Content-Length" = Some "0")
  \/ (origin v (processEnv a) (headers req !! "origin")
      = cbError "Not allowed by CORS"
      /\ handle v a req
         = Express.enteredModule errorHandler (Some "Not allowed by CORS")
             Express.freshResponse).
Proof.
  intros Hm.
  destruct (origin_answers v (processEnv a) (headers req !! "origin"))
    as [Hcb|Hcb]; [left | right; split; [exact Hcb | now apply handle_refused]].
  split; [exact Hcb |].
  assert (forall opts cb,
             cb (headers req !! "origin") = cbOk true ->
             exists res,
               Cors.corsMiddleware opts cb req Express.freshResponse
               = sent res
               /\ statusCode res = 204 /\ body res = None
               /\ resHeaders res !! "Content-Length" = Some "0") as Hmw.
  { intros opts cb E. unfold Cors.corsMiddleware. rewrite E.
    destruct (cors_preflight opts req Express.freshResponse Hm)
      as (res & E1 & E2 & E3 & E4).
    exists res. now repeat split. }
  destruct v; unfold origin in Hcb.
  - destruct (Hmw V1.corsOptions _ Hcb) as (res & E & Hres).
    exists res. split; [| exact Hres].
    unfold handle, V1.handle, V1.app. cbn [List.app].
    exact (dispatch_sent (V1.run a) (use corsHandler) _ req None _ res
             eq_refl E).
  - destruct (Hmw V2.corsOptions _ Hcb) as (res & E & Hres).
    exists res. split; [| exact Hres].
    unfold handle, V2.handle, V2.app. cbn [List.app].
    exact (dispatch_sent (V2.run a) (use corsHandler) _ req None _ res
             eq_refl E).
  - destruct (Hmw V3.corsOptions _ Hcb) as (res & E & Hres).
    exists res. split; [| exact Hres].
    unfold handle, V3.handle, V3.app. cbn [List.app].
    rewrite (dispatch_pass (V3.run a) (use originLogger) _ req None _ _
               eq_refl eq_refl).
    exact (dispatch_sent (V3.run a) (use corsHandler) _ req None _ res
             eq_refl E).
Qed.

Lemma preflight_ends_at_cors_witness :
  let a := {| processEnv := ∅; createIndexes := true;
              emailService := emailMissing; now := "2025-01-01T00:00:00.000Z";
              parserError := fun _ _ => Some "entity.parse.failed";
              connectDBResult := DB.threw "ECONNREFUSED" |} in
  let req := {| method := "OPTIONS"; path := "/api/quiz/42";
                headers := {[ "origin" := "http://localhost:8080" ]} |} in
  exists res,
    handle v2 a req = Express.responded corsHandler res
    /\ statusCode res = 204
    /\ body res = None
    /\ resHeaders res !! "Content-Length" = Some "0".
Proof.
  intros a req.
  destruct (preflight_ends_at_cors v2 a req eq_refl) as [[_ H]|[H _]];
    [exact H | vm_compute in H; discriminate H].
Defined.

(** ** The Access-Control-Allow-Origin header, exactly *)

Section NoOrigin.

Variables (a : ambient) (req : request).
Hypothesis Hfalsy : JS.truthy (headers req !! "origin") = false.

Let bare (res : response) : Prop := allowOrigin res = None.

Lemma cors_keeps_bare (opts : Cors.options)
    (cb : option string -> callbackArgs) (res : response) :
  bare res -> bare (responseOf (Cors.corsMiddleware opts cb req res)).
Proof.
  intros HP. unfold Cors.corsMiddleware.
  destruct (cb (headers req !! "origin")) as [[]|e]; cbn [responseOf];
    try exact HP.
  assert (bare (Cors.configureOrigin req res)) as H0.
  { unfold bare, Cors.configureOrigin, Cors.apply.
    rewrite allowOrigin_vary.
    destruct (headers req !! "origin") as [o|]; [| exact HP].
    now rewrite Hfalsy. }
  assert (forall r, bare r -> bare (Cors.configureCredentials opts r))
    as Hcred.
  { intros r Hr. unfold bare, Cors.configureCredentials.
    destruct (Cors.credentials opts); [| exact Hr]. now allow_origin. }
  unfold Cors.cors. destruct (String.eqb (method req) "OPTIONS");
    cbn [responseOf]; [| now apply Hcred].
  unfold bare. allow_origin.
  unfold Cors.configureAllowedHeaders, Cors.configureMethods.
  destruct (Cors.allowedHeaders opts);
    rewrite allowOrigin_apply by reflexivity; allow_origin;
    now apply Hcred.
Qed.

Lemma run_keeps_bare (v : version) (h : handler) (err : option string)
    (res : response) :
  bare res ->
  bare (responseOf
          (match v with v1 => V1.run a | v2 => V2.run a | v3 => V3.run a end
             h req err res)).
Proof.
  intros HP.
  assert (forall h, bare (responseOf (parse a h req res))) as Hparse.
  { intros h'. unfold parse. now destruct (parserError a h' req). }
  assert (bare (responseOf (healthHandler res))) as Hhealth.
  { unfold healthHandler, bare. cbn [responseOf]. now allow_origin. }
  assert (bare (responseOf (testNodemailerHandler a res))) as Hmail.
  { unfold testNodemailerHandler, bare.
    destruct (emailService a); cbn [responseOf]; now allow_origin. }
  destruct v, h; cbn [V1.run V2.run V3.run responseOf];
    auto using cors_keeps_bare.
  - unfold V1.fallback.
    destruct (headers req !! "origin") as [o|]; [rewrite Hfalsy |];
      cbn [andb]; destruct (String.eqb (method req) "OPTIONS");
      cbn [responseOf]; unfold bare; now allow_origin.
  - unfold V1.ensureDBHandler. now destruct (connectDBResult a).
  - unfold V2.fallback.
    destruct (headers req !! "origin") as [o|]; [rewrite Hfalsy |];
      cbn [andb]; destruct (String.eqb (method req) "OPTIONS");
      cbn [responseOf]; unfold bare; now allow_origin.
  - unfold V2.ensureDBHandler. now destruct (connectDBResult a).
  - unfold V3.ensureDBHandler. now destruct (connectDBResult a).
Qed.

Lemma no_origin_no_grant (v : version) :
  allowOrigin (Express.resOf (handle v a req)) = None.
Proof.
  destruct v; unfold handle, V1.handle, V2.handle, V3.handle.
  - apply (dispatch_keeps bare (V1.run a) req (run_keeps_bare v1));
      reflexivity.
  - apply (dispatch_keeps bare (V2.run a) req (run_keeps_bare v2));
      reflexivity.
  - apply (dispatch_keeps bare (V3.run a) req (run_keeps_bare v3));
      reflexivity.
Qed.

End NoOrigin.

(** X3.  The response object carries Access-Control-Allow-Origin exactly
    when the request has a non-empty Origin header that the origin
    callback accepts, and its value is then that header: the server never
    grants a wildcard or an origin other than the one that asked. *)
Theorem allow_origin_exact (v : version) (a : ambient) (req : request) :
  allowOrigin (Express.resOf (handle v a req))
  = match headers req !! "origin" with
    | Some o =>
        if JS.truthy (Some o) then
          match origin v (processEnv a) (Some o) with
          | cbOk true => Some o
          | _ => None
          end
        else None
    | None => None
    end.
Proof.
  destruct (headers req !! "origin") as [o|] eqn:Hreq.
  - destruct (JS.truthy (Some o)) eqn:Ho.
    + destruct (origin_answers v (processEnv a) (Some o)) as [Hcb|Hcb];
        rewrite Hcb.
      * apply accepted_origin_echoed; [exact Hreq | | exact Hcb].
        now apply truthy_Some.
      * rewrite (handle_refused v a req "Not allowed by CORS");
          [reflexivity | now rewrite Hreq].
    + apply no_origin_no_grant. now rewrite Hreq.
  - apply no_origin_no_grant. now rewrite Hreq.
Qed.

(** ** Requests that are not preflight *)

(** Splits a goal about a list of layers into one goal per layer. *)
Ltac each_layer :=
  repeat match goal with
         | |- Forall _ (_ :: _) => constructor
         | |- Forall _ [] => constructor
         end.

Section Front.

Variables (a : ambient) (req : request).
Hypothesis Hmethod : String.eqb (method req) "OPTIONS" = false.
Hypothesis Hparse : forall h, parserError a h req = None.












End Front.

Lemma handle_dispatch (v : version) (a : ambient) (req : request) :
  handle v a req
  = Express.dispatch (run v a) (app v) req None Express.freshResponse.
Proof. now destruct v. Qed.








(** ** Which route a path belongs to *)
























(** ** Index creation and the cached promise *)

Lemma step_chainsHold (v : version) (env : gmap string string) (ci : bool)
    (w : DB.world) (ev : DB.event) :
  v <> v1 ->
  shape w -> chainsHold w = true ->
  chainsHold (DB.step (db v env ci) w ev) = true.
Proof.
  intros Hv H Hc.
  destruct v; [contradiction | |];
    destruct H as [|u|u e|u chain [|]];
    destruct ev as [|[|i] [e'|]|[|i] [e'|]| |];
    try destruct chain; try destruct ci; try destruct i; cbn in *;
    congruence.
Qed.

Lemma exec_chainsHold (v : version) (env : gmap string string) (ci : bool)
    (trace : list DB.event) (w : DB.world) :
  v <> v1 ->
  shape w -> chainsHold w = true ->
  chainsHold (DB.exec (db v env ci) trace w) = true.
Proof.
  intros Hv. revert w.
  induction trace as [|ev trace IH]; intros w H Hc; cbn.
  - exact Hc.
  - apply IH; [now apply step_shape | now apply step_chainsHold].
Qed.

(** X7.  In versions 2 and 3 a failure of [createIndexes] never fails a
    request: whenever a [connectDB] call, made at any moment, ends by
    throwing [e], then [e] is the error with which [mongoose.connect]
    itself was rejected. *)
Theorem index_errors_are_swallowed (v : version) (env : gmap string string)
    (ci : bool) (trace more : list DB.event) (e : string) :
  let P := db v env ci in
  let w := DB.exec P trace DB.init in
  let w' := DB.exec P more (fst (DB.connectDB P w)) in
  v <> v1 ->
  DB.outcomeOf w' (snd (DB.connectDB P w)) = DB.threw e ->
  exists c,
    DB.connections w' !! 0 = Some c /\ DB.connectPromise c = DB.rejected e.
Proof.
  intros P w w' Hv Hthrew.
  assert (shape w) as Hw by apply exec_shape, idle.
  assert (w' = DB.exec P (trace ++ DB.callConnectDB :: more) DB.init) as Ew'.
  { unfold w', w, DB.exec. now rewrite fold_left_app. }
  assert (shape w') as Hw' by (rewrite Ew'; apply exec_shape, idle).
  assert (chainsHold w' = true) as Hc'
    by (rewrite Ew'; now apply exec_chainsHold; [| apply idle |]).
  assert (snd (DB.connectDB P w) = DB.returned
          \/ snd (DB.connectDB P w) = DB.awaiting 0) as [Ec|Ec].
  { destruct (connectDB_shape v env ci w Hw) as [[E _]|(_ & _ & E)].
    - right. fold P. rewrite E. now destruct v.
    - fold P in E. rewrite E. cbn [snd].
      destruct (DB.readyState w =? 1)%nat; [now left | now right]. }
  - rewrite Ec in Hthrew. discriminate Hthrew.
  - rewrite Ec in Hthrew.
    destruct Hw' as [|u|u e0|u chain up]; cbn in Hthrew, Hc' |- *;
      try discriminate Hthrew.
    + injection Hthrew as ->. eexists. split; reflexivity.
    + destruct chain; try discriminate Hthrew. discriminate Hc'.
Qed.

Lemma index_errors_are_swallowed_witness :
  let P := db v3 ∅ true in
  let w := DB.exec P [] DB.init in
  let w' := DB.exec P [DB.connectSettles 0 (Some "ENOTFOUND")]
              (fst (DB.connectDB P w)) in
  exists c,
    DB.connections w' !! 0 = Some c
    /\ DB.connectPromise c = DB.rejected "ENOTFOUND".
Proof.
  intros P w w'.
  apply (index_errors_are_swallowed v3 ∅ true []
           [DB.connectSettles 0 (Some "ENOTFOUND")] "ENOTFOUND");
    [discriminate | reflexivity].
Defined.

(** Once the promise chained on a successful connect is rejected, only
    [readyState] changes any more. *)
Lemma rejected_chain_stays (v : version) (env : gmap string string)
    (ci : bool) (u : option string) (e : string) (trace : list DB.event)
    (up : bool) :
  exists up' : bool,
    DB.exec (db v env ci) trace
      {| DB.readyState := if up then 1 else 0;
         DB.connections :=
           [{| DB.uri := u; DB.connectPromise := DB.fulfilled;
               DB.chained := DB.rejected e |}];
         DB.globalPromise := Some 0 |}
    = {| DB.readyState := if up' then 1 else 0;
         DB.connections :=
           [{| DB.uri := u; DB.connectPromise := DB.fulfilled;
               DB.chained := DB.rejected e |}];
         DB.globalPromise := Some 0 |}.
Proof.
  revert up. induction trace as [|ev trace IH]; intros up.
  - now exists up.
  - cbn [DB.exec fold_left].
    assert (exists up1 : bool,
               DB.step (db v env ci)
                 {| DB.readyState := if up then 1 else 0;
                    DB.connections :=
                      [{| DB.uri := u; DB.connectPromise := DB.fulfilled;
                          DB.chained := DB.rejected e |}];
                    DB.globalPromise := Some 0 |} ev
               = {| DB.readyState := if up1 then 1 else 0;
                    DB.connections :=
                      [{| DB.uri := u; DB.connectPromise := DB.fulfilled;
                          DB.chained := DB.rejected e |}];
                    DB.globalPromise := Some 0 |}) as [up1 ->].
    { destruct ev as [|[|[|i]] [e'|]|[|[|i]] [e'|]| |], up, v; cbn;
        first [now exists true | now exists false]. }
    apply IH.
Qed.

(** X8.  In version 1 nothing catches a failure of [createIndexes]: if it
    rejects with [e] after a successful connect, the global promise is
    rejected with [e] for good.  From then on a [connectDB] call returns
    while [readyState] is 1, and at any other moment (the connection was
    lost and is not back yet) it throws [e], although [mongoose.connect]
    succeeded; it never connects again. *)
Theorem index_error_poisons_v1 (env : gmap string string) (ci : bool)
    (trace more : list DB.event) (e : string) :
  let P := db v1 env ci in
  let w := DB.exec P trace DB.init in
  let w' := DB.exec P more w in
  (exists c, DB.connections w !! 0 = Some c
             /\ DB.connectPromise c = DB.fulfilled
             /\ DB.chained c = DB.rejected e) ->
  DB.connectDB P w'
  = (w', if (DB.readyState w' =? 1)%nat then DB.returned else DB.awaiting 0)
  /\ DB.outcomeOf w' (DB.awaiting 0) = DB.threw e
  /\ DB.connectCalls w' = 1.
Proof.
  intros P w w' (c & Hc & Hconn & Hchain).
  assert (shape w) as Hw by apply exec_shape, idle.
  assert (exists (u : option string) (up : bool),
             w = {| DB.readyState := if up then 1 else 0;
                    DB.connections :=
                      [{| DB.uri := u; DB.connectPromise := DB.fulfilled;
                          DB.chained := DB.rejected e |}];
                    DB.globalPromise := Some 0 |}) as (u & up & Ew).
  { destruct Hw as [|u|u e0|u chain up]; cbn in Hc;
      try discriminate Hc; injection Hc as <-; cbn in Hconn, Hchain;
      try discriminate Hconn.
    subst chain. now exists u, up. }
  destruct (rejected_chain_stays v1 env ci u e more up) as [up' Ew'].
  unfold w'. rewrite Ew. fold P in Ew'. rewrite Ew'.
  now destruct up'.
Qed.

Lemma index_error_poisons_v1_witness :
  let P := db v1 ∅ true in
  let w := DB.exec P [DB.callConnectDB; DB.connectSettles 0 None;
                      DB.indexesSettle 0 (Some "E11000")] DB.init in
  let w' := DB.exec P [DB.callConnectDB; DB.connectionLost] w in
  DB.connectDB P w' = (w', DB.awaiting 0)
  /\ DB.outcomeOf w' (DB.awaiting 0) = DB.threw "E11000"
  /\ DB.connectCalls w' = 1.
Proof.
  intros P w w'.
  apply (index_error_poisons_v1 ∅ true
           [DB.callConnectDB; DB.connectSettles 0 None;
            DB.indexesSettle 0 (Some "E11000")]
           [DB.callConnectDB; DB.connectionLost] "E11000").
  eexists. repeat split; reflexivity.
Defined.

(** ** The connection is made lazily, with the configured URI *)

Lemma exec_without_call (P : DB.program) (trace : list DB.event) :
  existsb isCall trace = false -> DB.exec P trace DB.init = DB.init.
Proof.
  induction trace as [|ev trace IH]; [reflexivity |].
  cbn [existsb]. intros H. apply orb_false_iff in H. destruct H as [Hev H].
  cbn [DB.exec fold_left].
  assert (DB.step P DB.init ev = DB.init) as ->; [| now apply IH].
  destruct ev as [|[|i] [e|]|[|i] [e|]| |]; try discriminate Hev;
    reflexivity.
Qed.

Lemma step_connectedTo (v : version) (env : gmap string string) (ci : bool)
    (w : DB.world) (ev : DB.event) :
  shape w ->
  connectedTo (MONGO_URI v env) w ->
  connectedTo (MONGO_URI v env) (DB.step (db v env ci) w ev).
Proof.
  unfold connectedTo. intros H Hu.
  destruct H as [|u|u e|u chain [|]];
    destruct ev as [|[|i] [e'|]|[|i] [e'|]| |];
    try destruct chain; try destruct i; destruct v; cbn in *;
    try exact Hu; each_layer;
    first [reflexivity | now inversion Hu].
Qed.

Lemma exec_connectedTo (v : version) (env : gmap string string) (ci : bool)
    (trace : list DB.event) (w : DB.world) :
  shape w ->
  connectedTo (MONGO_URI v env) w ->
  connectedTo (MONGO_URI v env) (DB.exec (db v env ci) trace w).
Proof.
  revert w. induction trace as [|ev trace IH]; intros w H Hu; cbn.
  - exact Hu.
  - apply IH; [now apply step_shape | now apply step_connectedTo].
Qed.

Lemma exec_with_call (v : version) (env : gmap string string) (ci : bool)
    (trace : list DB.event) :
  existsb isCall trace = true ->
  DB.globalPromise (DB.exec (db v env ci) trace DB.init) = Some 0.
Proof.
  induction trace as [|ev trace IH]; [discriminate |].
  cbn [existsb DB.exec fold_left]. intros Hc.
  destruct ev as [|[|i] [e|]|[|i] [e|]| |]; cbn [isCall orb] in Hc;
    try exact (IH Hc).
  apply exec_global; [apply step_shape, idle | now destruct v].
Qed.

(** X9.  The connection is lazy.  Until [connectDB] is called for the
    first time nothing is connected and the world is as the process
    started; from the first call on there is exactly one
    [mongoose.connect] call, made with [MONGO_URI], and the global promise
    refers to it. *)
Theorem connect_is_lazy (v : version) (env : gmap string string) (ci : bool)
    (trace : list DB.event) :
  let w := DB.exec (db v env ci) trace DB.init in
  if existsb isCall trace
  then exists c,
         DB.connections w = [c]
         /\ DB.uri c = MONGO_URI v env
         /\ DB.globalPromise w = Some 0
  else w = DB.init.
Proof.
  intros w.
  destruct (existsb isCall trace) eqn:Hcall;
    [| now apply exec_without_call].
  assert (shape w) as Hw by apply exec_shape, idle.
  assert (connectedTo (MONGO_URI v env) w) as Hu
    by (apply exec_connectedTo; [apply idle | constructor]).
  assert (DB.globalPromise w = Some 0) as Hg by now apply exec_with_call.
  unfold connectedTo in Hu.
  destruct Hw as [|u|u e|u chain up]; [discriminate Hg | ..];
    inversion Hu; subst; eexists; repeat split; assumption.
Qed.

(** ** What the patterns match and what normalisation removes *)

Lemma append_cons (c : ascii) (s t : string) :
  String c s ++ t = String c (s ++ t).
Proof. reflexivity. Qed.

Lemma append_assoc_string (s t u : string) : (s ++ t) ++ u = s ++ (t ++ u).
Proof.
  induction s as [|c s IH]; [reflexivity |].
  now rewrite !append_cons, IH.
Qed.

Lemma stripPrefixI_split (lit s r : string) :
  JS.stripPrefixI lit s = Some r
  <-> exists p, s = p ++ r /\ JS.eqI lit p = true.
Proof.
  revert s. induction lit as [|a lit IH]; intros s.
  - cbn [JS.stripPrefixI]. split.
    + intros [= <-]. now exists "".
    + intros ([|c p] & -> & Hp); [reflexivity | discriminate Hp].
  - destruct s as [|c s]; cbn [JS.stripPrefixI].
    + split; [discriminate |].
      intros ([|c p] & E & Hp); [discriminate Hp | discriminate E].
    + split.
      * destruct (JS.charEqI a c) eqn:Hc; [| discriminate].
        intros H. apply IH in H. destruct H as (p & -> & Hp).
        exists (String c p). split; [reflexivity |].
        cbn [JS.eqI]. now rewrite Hc.
      * intros ([|c' p] & E & Hp); [discriminate Hp |].
        rewrite append_cons in E. injection E as <- ->.
        cbn [JS.eqI] in Hp. apply andb_true_iff in Hp.
        destruct Hp as [Hc Hp]. rewrite Hc. apply IH. eauto.
Qed.

Lemma dotPlusThenI_split (lit s : string) :
  JS.dotPlusThenI lit s = true
  <-> exists mid q,
        s = mid ++ q
        /\ mid <> ""
        /\ allChars (fun c => negb (JS.isLineTerminator c)) mid = true
        /\ JS.eqI lit q = true.
Proof.
  split.
  - induction s as [|c s IH]; cbn [JS.dotPlusThenI]; [discriminate |].
    intros H. apply andb_true_iff in H. destruct H as [Hc H].
    apply orb_true_iff in H. destruct H as [H|H].
    + exists (String c ""), s. repeat split; [discriminate | | exact H].
      cbn [allChars]. now rewrite Hc.
    + destruct (IH H) as (mid & q & -> & _ & Hmid & Hq).
      exists (String c mid), q. repeat split; [discriminate | | exact Hq].
      cbn [allChars]. now rewrite Hc, Hmid.
  - intros (mid & q & -> & Hne & Hmid & Hq).
    induction mid as [|c mid IH]; [contradiction |].
    rewrite append_cons. cbn [JS.dotPlusThenI allChars] in *.
    apply andb_true_iff in Hmid. destruct Hmid as [Hc Hmid].
    rewrite Hc. cbn [andb].
    destruct mid as [|c' mid'].
    + change ("" ++ q) with q. now rewrite Hq.
    + rewrite IH; [apply orb_true_r | discriminate | exact Hmid].
Qed.

(** X11.  The origins that the preview pattern of version 3 lets in are
    exactly the strings made of [https://], then one or more code units
    other than line terminators, then [.vercel.app], letter case apart.
    What stands in the middle is not restricted further: it may hold
    dots, slashes or a whole other host name, and it may not be empty. *)
Theorem isVercelApp_iff (s : string) :
  JS.isVercelApp s = true
  <-> exists p mid q,
        s = p ++ mid ++ q
        /\ JS.eqI "https://" p = true
        /\ mid <> ""
        /\ allChars (fun c => negb (JS.isLineTerminator c)) mid = true
        /\ JS.eqI ".vercel.app" q = true.
Proof.
  unfold JS.isVercelApp. split.
  - destruct (JS.stripPrefixI "https://" s) as [rest|] eqn:E;
      [| discriminate].
    intros H. apply stripPrefixI_split in E. destruct E as (p & -> & Hp).
    apply dotPlusThenI_split in H.
    destruct H as (mid & q & -> & Hne & Hmid & Hq).
    now exists p, mid, q.
  - intros (p & mid & q & -> & Hp & Hne & Hmid & Hq).
    assert (JS.stripPrefixI "https://" (p ++ mid ++ q) = Some (mid ++ q))
      as -> by (apply stripPrefixI_split; eauto).
    apply dotPlusThenI_split. now exists mid, q.
Qed.

Lemma dropStart_split (p : ascii -> bool) (s : string) :
  exists lead, s = lead ++ JS.dropStart p s /\ allChars p lead = true.
Proof.
  induction s as [|c s IH]; [now exists "" |].
  cbn [JS.dropStart]. destruct (p c) eqn:Hc; [| now exists ""].
  destruct IH as (lead & E & Hlead).
  exists (String c lead). rewrite append_cons, <- E.
  split; [reflexivity |]. cbn [allChars]. now rewrite Hc.
Qed.

Lemma dropEnd_split (p : ascii -> bool) (s : string) :
  exists tail, s = JS.dropEnd p s ++ tail /\ allChars p tail = true.
Proof.
  induction s as [|c s IH]; [now exists "" |].
  rewrite dropEnd_cons. destruct IH as (tail & E & Htail).
  destruct (JS.dropEnd p s) as [|d t] eqn:Hd.
  - change ("" ++ tail) with tail in E. subst tail.
    destruct (p c) eqn:Hc.
    + exists (String c s). split; [reflexivity |].
      cbn [allChars]. now rewrite Hc.
    + exists s. now split.
  - exists tail. rewrite append_cons, <- E. now split.
Qed.

(** X12.  [normalizeOriginEntry] touches the two ends of an entry only.
    A non-empty entry is white space, a core, a run of slashes and white
    space again; the result is the core as it stands, with [https://] put
    in front when the core does not begin with [http://] or [https://].
    Nothing inside the core is changed: not its letter case, not a path,
    not white space or slashes within it. *)
Theorem normalizeOriginEntry_keeps_core (s : string) :
  s <> "" ->
  exists lead core slashes trail,
    s = lead ++ core ++ slashes ++ trail
    /\ allChars JS.isWhiteSpace lead = true
    /\ allChars JS.isSlash slashes = true
    /\ allChars JS.isWhiteSpace trail = true
    /\ JS.stripTrailingSlashes core = core
    /\ V3.normalizeOriginEntry (Some s)
       = Some (if JS.hasHttpScheme core then core else "https://" ++ core).
Proof.
  intros Hs.
  destruct (dropStart_split JS.isWhiteSpace s) as (lead & E1 & Hlead).
  destruct (dropEnd_split JS.isWhiteSpace (JS.dropStart JS.isWhiteSpace s))
    as (trail & E2 & Htrail).
  destruct (dropEnd_split JS.isSlash (JS.trim s)) as (slashes & E3 & Hsl).
  exists lead, (JS.stripTrailingSlashes (JS.trim s)), slashes, trail.
  repeat split; try assumption.
  - unfold JS.stripTrailingSlashes.
    rewrite <- (append_assoc_string (JS.dropEnd JS.isSlash (JS.trim s))
                  slashes trail), <- E3.
    unfold JS.trim. now rewrite <- E2.
  - apply dropEnd_idem.
  - rewrite normalizeOriginEntry_truthy by exact Hs. cbv zeta.
    now destruct (JS.hasHttpScheme (JS.stripTrailingSlashes (JS.trim s))).
Qed.

Lemma normalizeOriginEntry_keeps_core_witness :
  exists lead core slashes trail,
    "  App.Example.com/Path// " = lead ++ core ++ slashes ++ trail
    /\ allChars JS.isWhiteSpace lead = true
    /\ allChars JS.isSlash slashes = true
    /\ allChars JS.isWhiteSpace trail = true
    /\ JS.stripTrailingSlashes core = core
    /\ V3.normalizeOriginEntry (Some "  App.Example.com/Path// ")
       = Some (if JS.hasHttpScheme core then core else "https://" ++ core).
Proof.
  apply (normalizeOriginEntry_keeps_core "  App.Example.com/Path// ").
  discriminate.
Defined.

(** ** The allow-lists against the environment *)

(** X13.  The allow-list of version 3 holds the six built-in origins, as
    written, and the normalised values of CLIENT_URL and VERCEL_URL when
    they are set and not empty; it holds nothing else.  In particular
    FRONTEND_URL plays no part in version 3, and a bare host in either
    variable is listed with [https://] in front. *)
Theorem allowedOrigins_v3_exact (env : gmap string string) (o : string) :
  In o (allowedOrigins v3 env)
  <-> In o [ "http://localhost:5173";
             "http://localhost:8080";
             "http://127.0.0.1:5173";
             "http://127.0.0.1:8080";
             "https://frontend-smartai-hydx.vercel.app";
             "https://smartai-ten.vercel.app" ]
      \/ exists k s,
           (k = "CLIENT_URL" \/ k = "VERCEL_URL")
           /\ env !! k = Some s
           /\ V3.normalizeOriginEntry (Some s) = Some o.
Proof.
  unfold allowedOrigins, V3.allowedOrigins.
  rewrite uniq_In, filterBoolean_In, in_map_iff. split.
  - intros [[(e & He & Hin) Hne] _].
    unfold V3.rawAllowlist in Hin. cbn [In] in Hin.
    destruct Hin as [<-|[<-|[<-|[<-|[<-|[<-|[Hin|[Hin|[]]]]]]]]];
      try (left; vm_compute in He; injection He as <-; cbn; tauto).
    + right. destruct e as [s|]; [| discriminate He].
      exists "CLIENT_URL", s. now split; [left |].
    + right. destruct e as [s|]; [| discriminate He].
      exists "VERCEL_URL", s. now split; [right |].
  - intros [Hin|(k & s & Hk & Hs & He)].
    + split; [| cbn; tauto]. cbn [In] in Hin.
      repeat destruct Hin as [<-|Hin]; try contradiction;
        (split; [| discriminate]);
        match goal with
        | |- exists x, V3.normalizeOriginEntry x = Some ?l /\ _ =>
            exists (Some l)
        end;
        (split; [reflexivity | cbn; tauto]).
    + split; [| cbn; tauto]. split.
      * exists (Some s). split; [exact He |].
        unfold V3.rawAllowlist. cbn [In].
        destruct Hk as [-> | ->]; rewrite Hs; tauto.
      * now apply (normalizeOriginEntry_result (Some s) o).
Qed.

(** X14.  Version 2 accepts every origin that version 1 accepts under the
    same environment: its list adds the two 127.0.0.1 origins to that of
    version 1 and takes nothing away. *)
Theorem v2_accepts_what_v1_accepts (env : gmap string string)
    (o : option string) :
  origin v1 env o = cbOk true -> origin v2 env o = cbOk true.
Proof.
  unfold origin, V1.origin, V2.origin.
  destruct o as [o|]; [| reflexivity].
  destruct (negb (JS.truthy (Some o))); [reflexivity |].
  destruct (JS.includes (V1.allowedOrigins env) o) eqn:H1; [| discriminate].
  intros _.
  assert (JS.includes (V2.allowedOrigins env) o = true) as ->;
    [| reflexivity].
  apply includes_In in H1. apply includes_In.
  unfold V1.allowedOrigins in H1. unfold V2.allowedOrigins.
  apply filterBoolean_In in H1. apply filterBoolean_In.
  destruct H1 as [H1 Hne]. split; [| exact Hne].
  cbn [In] in *. tauto.
Qed.

Lemma v2_accepts_what_v1_accepts_witness :
  origin v2 {[ "FRONTEND_URL" := "https://quiz.example" ]}
    (Some "https://quiz.example")
  = cbOk true.
Proof.
  apply (v2_accepts_what_v1_accepts
           {[ "FRONTEND_URL" := "https://quiz.example" ]}
           (Some "https://quiz.example")).
  reflexivity.
Defined.

(** ** The other CORS headers *)

Lemma getHeader_setHeader (k k' s : string) (res : response) :
  getHeader k (setHeader k' s res)
  = if String.eqb k' k then Some s else getHeader k res.
Proof.
  unfold getHeader, setHeader. cbn [resHeaders].
  destruct (String.eqb_spec k' k) as [->|Hk].
  - apply lookup_insert_eq.
  - now apply lookup_insert_ne.
Qed.

Lemma getHeader_removeHeader (k k' : string) (res : response) :
  getHeader k (removeHeader k' res)
  = if String.eqb k' k then None else getHeader k res.
Proof.
  unfold getHeader, removeHeader. cbn [resHeaders].
  destruct (String.eqb_spec k' k) as [->|Hk].
  - apply lookup_delete_eq.
  - now apply lookup_delete_ne.
Qed.

Lemma getHeader_status (k : string) (n : nat) (res : response) :
  getHeader k (status n res) = getHeader k res.
Proof. reflexivity. Qed.

Lemma getHeader_vary (k field : string) (res : response) :
  String.eqb "Vary" k = false ->
  getHeader k (Cors.vary field res) = getHeader k res.
Proof.
  intros Hk. unfold Cors.vary.
  destruct (resHeaders res !! "Vary"); now rewrite getHeader_setHeader, Hk.
Qed.

Lemma getHeader_apply (k k' : string) (v : option string) (res : response) :
  getHeader k (Cors.apply k' v res)
  = if String.eqb k' k && JS.truthy v then v else getHeader k res.
Proof.
  unfold Cors.apply. destruct v as [s|]; [| now rewrite andb_false_r].
  destruct (JS.truthy (Some s)); [| now rewrite andb_false_r].
  now rewrite getHeader_setHeader, andb_true_r.
Qed.

Lemma getHeader_resJson (k : string) (j : json) (res : response) :
  String.eqb "Content-Type" k = false ->
  getHeader k (Express.resJson j res) = getHeader k res.
Proof.
  intros Hk. unfold Express.resJson.
  destruct (resHeaders res !! "Content-Type"); [reflexivity |].
  change (getHeader k
            (setHeader "Content-Type" "application/json; charset=utf-8" res)
          = getHeader k res).
  now rewrite getHeader_setHeader, Hk.
Qed.

(** Pushes [getHeader] of a header with a known name through the
    operations on a response. *)
Ltac get_header :=
  repeat first
    [ rewrite getHeader_setHeader
    | rewrite getHeader_removeHeader
    | rewrite getHeader_status
    | rewrite getHeader_vary by reflexivity
    | rewrite getHeader_apply
    | rewrite getHeader_resJson by reflexivity
    | progress cbn [String.eqb Ascii.eqb Bool.eqb andb] ].

(** X15.  What a version announces to a preflight request that the origin
    callback accepts.  The answer of the cors package carries the methods
    of [corsOptions] (version 1 sets none, so the default of the package,
    which has PATCH and no OPTIONS), credentials [true], and as allowed
    headers the list of [corsOptions]; version 1 gives no list, and the
    headers that the browser asked for are sent back as they are.  The
    values of the fallback middleware are never sent for a preflight
    request. *)
Theorem preflight_advertises (v : version) (a : ambient) (req : request) :
  method req = "OPTIONS" ->
  origin v (processEnv a) (headers req !! "origin") = cbOk true ->
  exists res,
    handle v a req = Express.responded corsHandler res
    /\ getHeader "Access-Control-Allow-Methods" res
       = Some match v with
              | v1 => "GET,HEAD,PUT,PATCH,POST,DELETE"
              | v2 | v3 => "GET,HEAD,PUT,PATCH,POST,DELETE,OPTIONS"
              end
    /\ getHeader "Access-Control-Allow-Credentials" res = Some "true"
    /\ getHeader "Access-Control-Allow-Headers" res
       = match v with
         | v1 =>
             if JS.truthy (headers req !! "access-control-request-headers")
             then headers req !! "access-control-request-headers"
             else None
         | v2 => Some "Content-Type, Authorization, X-Requested-With"
         | v3 => Some "Content-Type,Authorization,X-Requested-With,Accept"
         end.
Proof.
  intros Hm Hcb.
  assert (forall opts cb,
             cb (headers req !! "origin") = cbOk true ->
             Cors.corsMiddleware opts cb req Express.freshResponse
             = sent (responseOf (Cors.cors opts req Express.freshResponse)))
    as Hmw.
  { intros opts cb E. unfold Cors.corsMiddleware, Cors.cors.
    now rewrite E, Hm. }
  assert (forall opts,
             responseOf (Cors.cors opts req Express.freshResponse)
             = setHeader "Content-Length" "0"
                 (status 204
                    (Cors.configureAllowedHeaders opts req
                       (Cors.configureMethods opts
                          (Cors.configureCredentials opts
                             (Cors.configureOrigin req
                                Express.freshResponse)))))) as Hres.
  { intros opts. unfold Cors.cors. now rewrite Hm. }
  assert (forall k,
             String.eqb "Access-Control-Allow-Origin" k = false ->
             String.eqb "Vary" k = false ->
             String.eqb "X-Powered-By" k = false ->
             getHeader k (Cors.configureOrigin req Express.freshResponse)
             = None) as Horigin.
  { intros k H1 H2 H3. unfold Cors.configureOrigin.
    rewrite getHeader_vary, getHeader_apply, H1 by exact H2.
    unfold getHeader, Express.freshResponse. cbn [resHeaders andb].
    apply lookup_singleton_ne. intros <-. discriminate H3. }
  destruct v; unfold origin in Hcb.
  - exists (responseOf (Cors.cors V1.corsOptions req Express.freshResponse)).
    split.
    { rewrite handle_dispatch. cbn [app run]. unfold V1.app. cbn [List.app].
      exact (dispatch_sent (V1.run a) (use corsHandler) _ req None _ _
               eq_refl (Hmw _ _ Hcb)). }
    rewrite Hres.
    unfold Cors.configureAllowedHeaders, Cors.configureMethods,
      Cors.configureCredentials. cbn [V1.corsOptions Cors.allowedHeaders
      Cors.methods Cors.credentials].
    repeat split; get_header; try reflexivity.
    destruct (JS.truthy (headers req !! "access-control-request-headers"));
      [reflexivity | now apply Horigin].
  - exists (responseOf (Cors.cors V2.corsOptions req Express.freshResponse)).
    split.
    { rewrite handle_dispatch. cbn [app run]. unfold V2.app. cbn [List.app].
      exact (dispatch_sent (V2.run a) (use corsHandler) _ req None _ _
               eq_refl (Hmw _ _ Hcb)). }
    rewrite Hres.
    unfold Cors.configureAllowedHeaders, Cors.configureMethods,
      Cors.configureCredentials. cbn [V2.corsOptions Cors.allowedHeaders
      Cors.methods Cors.credentials].
    repeat split; get_header; reflexivity.
  - exists (responseOf (Cors.cors V3.corsOptions req Express.freshResponse)).
    split.
    { rewrite handle_dispatch. cbn [app run]. unfold V3.app. cbn [List.app].
      rewrite (dispatch_pass (V3.run a) (use originLogger) _ req None _ _
                 eq_refl eq_refl).
      exact (dispatch_sent (V3.run a) (use corsHandler) _ req None _ _
               eq_refl (Hmw _ _ Hcb)). }
    rewrite Hres.
    unfold Cors.configureAllowedHeaders, Cors.configureMethods,
      Cors.configureCredentials. cbn [V3.corsOptions Cors.allowedHeaders
      Cors.methods Cors.credentials].
    repeat split; get_header; reflexivity.
Qed.

Lemma preflight_advertises_witness :
  let a := {| processEnv := ∅; createIndexes := true;
              emailService := emailMissing; now := "2025-01-01T00:00:00.000Z";
              parserError := fun _ _ => None;
              connectDBResult := DB.resolved |} in
  let req := {| method := "OPTIONS"; path := "/api/quiz";
                headers :=
                  {[ "origin" := "http://localhost:5173";
                     "access-control-request-headers" := "x-trace-id" ]} |} in
  exists res,
    handle v1 a req = Express.responded corsHandler res
    /\ getHeader "Access-Control-Allow-Methods" res
       = Some "GET,HEAD,PUT,PATCH,POST,DELETE"
    /\ getHeader "Access-Control-Allow-Headers" res = Some "x-trace-id".
Proof.
  intros a req.
  destruct (preflight_advertises v1 a req eq_refl eq_refl)
    as (res & E & Hmethods & _ & Hheaders).
  exists res. split; [exact E |]. split; [exact Hmethods |].
  rewrite Hheaders. reflexivity.
Defined.

Section Methods.

Variables (v : version) (a : ambient) (req : request).
Hypothesis Hmethod : String.eqb (method req) "OPTIONS" = false.

Let methods (res : response) : option string :=
  getHeader "Access-Control-Allow-Methods" res.




End Methods.


